(** * clu.deterministic_data: host sharding and the deterministic input pipeline

    A shallow embedding of [src/clu/deterministic_data.py].

    Python integers are unbounded and are modelled by [Z]; [//] is floor
    division ([Z.div]) and raises on a zero divisor.  Exceptions are values of
    [exn] carried by [result]; the warning written through [absl.logging] is
    returned next to the result. *)

From Stdlib Require Import ZArith List String Lia Bool.
From stdpp Require Import gmap strings list fin_maps.

Local Open Scope Z_scope.
Set Warnings "-register-all".

(** ** Python exceptions *)

Module Py.

(** The texts the source puts in its exceptions, with the formatted values
    kept as data. *)
Inductive message :=
| InvalidHostCombination (host_id host_count : Z)
    (* f"Invalid combination of host_id ({host_id}) and host_count ({host_count})." *)
| SetRngWhenShuffling
    (* "Please set 'rng' when shuffling." *)
| UnusedExamples (num_unused_examples : Z)
    (* assert ..., num_unused_examples *)
| InvalidPadding (padding : Z) (batch_dims : list Z) (cardinality pad_up_to_batches : Z)
    (* f"Invalid padding={padding} (batch_dims=..., cardinality=..., pad_up_to_batches=...)" *)
| DuplicateKeyword (name : string)
    (* dict() got multiple values for keyword argument *)
| NegativeDimension (d : Z)
    (* "Dimension {d} must be >= 0", for a negative batch size *)
| PartiallyKnownShape
    (* tf.zeros of a shape with an unknown dimension *)
| NoMessage.

Inductive exn :=
| ValueError (msg : message)
| AssertionError (msg : message)
| TypeError (msg : message)
| ZeroDivisionError
| IndexError
| InvalidArgumentError.

Inductive result (A : Type) :=
| Ok (a : A)
| Raise (e : exn).
Arguments Ok {A} a.
Arguments Raise {A} e.

Definition bind {A B} (r : result A) (k : A -> result B) : result B :=
  match r with
  | Ok a => k a
  | Raise e => Raise e
  end.

Definition assert (b : bool) (msg : message) : result unit :=
  if b then Ok tt else Raise (AssertionError msg).

(** [a // b] *)
Definition floordiv (a b : Z) : result Z :=
  if b =? 0 then Raise ZeroDivisionError else Ok (a / b).

(** Truth value of an [Optional[int]]: [None] and [0] are false. *)
Definition truthy (o : option Z) : bool :=
  match o with
  | None => false
  | Some z => negb (z =? 0)
  end.

(** [list.pop()]: removes and returns the last item. *)
Definition pop {A} (l : list A) : result (A * list A) :=
  match rev l with
  | [] => Raise IndexError
  | x :: r => Ok (x, rev r)
  end.

End Py.
Export Py.

Global Instance result_ret : MRet result := fun _ a => Ok a.
Global Instance result_bind : MBind result := fun _ _ k r => Py.bind r k.

(** ** The host shard planner *)

(** [tfds.core.ReadInstruction(split, from_=..., to=..., unit=...)] *)
Record ReadInstruction := {
  ri_split : string;
  ri_from : Z;
  ri_to : Z;
  ri_unit : string
}.

(** What [jax.host_id()] and [jax.host_count()] answer in the running
    process. *)
Record JaxRuntime := {
  jax_host_id : Z;
  jax_host_count : Z
}.

(** A record written with [logging.warning(fmt, *args)]. *)
Inductive log_record :=
| Warning (fmt : string) (args : list Z).

Definition dropping_fmt : string :=
  "Dropping %d examples of %d examples (host count: %d).".

(** [num_examples - examples_per_host * host_count] *)
Definition num_unused_examples (num_examples host_count : Z) : Z :=
  num_examples - (num_examples / host_count) * host_count.

Definition get_read_instruction_for_host
    (rt : JaxRuntime) (split : string) (num_examples : Z)
    (host_id host_count : option Z) (drop_remainder : bool)
  : list log_record * result ReadInstruction :=
  let host_id := match host_id with None => jax_host_id rt | Some h => h end in
  let host_count := match host_count with None => jax_host_count rt | Some c => c end in
  if (host_id <? 0) || (host_id >=? host_count) || (host_count <? 1) then
    ([], Raise (ValueError (InvalidHostCombination host_id host_count)))
  else
    match floordiv num_examples host_count with
    | Raise e => ([], Raise e)
    | Ok examples_per_host =>
      let start := examples_per_host * host_id in
      let end_ := examples_per_host * (host_id + 1) in
      (* Handle remaining examples. *)
      let num_unused_examples := num_examples - examples_per_host * host_count in
      if negb (num_unused_examples >=? 0) then
        ([], Raise (AssertionError (UnusedExamples num_unused_examples)))
      else if negb (num_unused_examples <? host_count) then
        ([], Raise (AssertionError (UnusedExamples num_unused_examples)))
      else if num_unused_examples >? 0 then
        if drop_remainder then
          ([Warning dropping_fmt [num_unused_examples; num_examples; host_count]],
           Ok {| ri_split := split; ri_from := start; ri_to := end_; ri_unit := "abs" |})
        else
          (* The first `num_unused_examples` hosts get one extra example. *)
          let start := start + Z.min host_id num_unused_examples in
          let end_ := end_ + Z.min (host_id + 1) num_unused_examples in
          ([], Ok {| ri_split := split; ri_from := start; ri_to := end_; ri_unit := "abs" |})
      else
        ([], Ok {| ri_split := split; ri_from := start; ri_to := end_; ri_unit := "abs" |})
    end.

(** Index [i] lies in the range the planner's outcome [out] describes. *)
Definition reads (out : list log_record * result ReadInstruction) (i : Z) : Prop :=
  exists ri, snd out = Ok ri /\ ri_from ri <= i < ri_to ri.

(** The hosts [0 .. host_count-1], whose outcomes are [ranges], read exactly
    the indices of [[lo, hi)]. *)
Definition covers_exactly (ranges : Z -> list log_record * result ReadInstruction)
    (host_count lo hi : Z) : Prop :=
  forall i, lo <= i < hi <-> exists h, 0 <= h < host_count /\ reads (ranges h) i.

(** No index is read by two hosts. *)
Definition pairwise_disjoint (ranges : Z -> list log_record * result ReadInstruction)
    (host_count : Z) : Prop :=
  forall h1 h2 i, 0 <= h1 < host_count -> 0 <= h2 < host_count ->
    reads (ranges h1) i -> reads (ranges h2) i -> h1 = h2.

(** The planner called with explicit topology arguments. *)
Definition plan (rt : JaxRuntime) (split : string)
    (num_examples host_count host_id : Z) (drop_remainder : bool) :=
  get_read_instruction_for_host rt split num_examples
    (Some host_id) (Some host_count) drop_remainder.

(** ** The tf.data operations the pipeline is built from

    The pipeline library is an external collaborator.  The operations
    [create_dataset] calls are modelled by what they do to three observable
    parts of a dataset: the sequence of its elements, its [element_spec], and
    the number [int(ds.cardinality())] reports, which is [-1] for an infinite
    dataset and [-2] when the library does not know the count. *)

Module Tf.

Inductive DType := DT_bool | DT_uint8 | DT_int32 | DT_uint32 | DT_int64 | DT_float32 | DT_string.

(** A [tf.TensorSpec]; a dimension that is not known statically is [None]. *)
Record TensorSpec := {
  ts_shape : list (option Z);
  ts_dtype : DType
}.

(** A dense tensor: its values in row-major order ([bool] as 0 and 1). *)
Record Tensor := {
  t_dtype : DType;
  t_shape : list Z;
  t_values : list Z
}.

Definition INFINITE_CARDINALITY : Z := -1.
Definition UNKNOWN_CARDINALITY : Z := -2.

Definition int64_max : Z := 2 ^ 63 - 1.

(** Conversion to a signed integer of [w] bits keeps the low [w] bits. *)
Definition wrap_signed (w : Z) (z : Z) : Z :=
  (z + 2 ^ (w - 1)) mod 2 ^ w - 2 ^ (w - 1).

(** [tf.cast(x, tf.int32)] of an integer scalar *)
Definition cast_int32 (z : Z) : Z := wrap_signed 32 z.

(** [tf.cast(t, tf.int64)] of an integer tensor *)
Definition cast_int64 (t : Tensor) : Tensor :=
  {| t_dtype := DT_int64; t_shape := t_shape t; t_values := map (wrap_signed 64) (t_values t) |}.

(** The product of the numbers of [dims]. *)
Definition product (dims : list Z) : Z := fold_right Z.mul 1 dims.

(** Arithmetic on [np.int64] scalars wraps around. *)
Definition np_mul (a b : Z) : Z := wrap_signed 64 (a * b).
Definition np_sub (a b : Z) : Z := wrap_signed 64 (a - b).

(** [np.prod(batch_dims)], for batch sizes that are 64-bit integers: the
    product in 64-bit integers, which wraps around.  (For an empty
    [batch_dims] NumPy answers the float [1.0]; it is taken here as the
    integer it holds, and the statements about padding below are made for a
    non-empty [batch_dims].) *)
Definition np_prod (dims : list Z) : Z := fold_right np_mul 1 dims.

(** The dimensions of a shape, when all of them are known. *)
Fixpoint static_shape (shape : list (option Z)) : option (list Z) :=
  match shape with
  | [] => Some []
  | Some d :: shape => cons d <$> static_shape shape
  | None :: _ => None
  end.

(** [tf.zeros(shape, dtype)]: a [ValueError] for a partially known shape. *)
Definition zeros (spec : TensorSpec) : result Tensor :=
  match static_shape (ts_shape spec) with
  | Some shape =>
    Ok {| t_dtype := ts_dtype spec; t_shape := shape;
          t_values := replicate (Z.to_nat (product shape)) 0 |}
  | None => Raise (ValueError PartiallyKnownShape)
  end.

Definition bool_scalar (b : bool) : Tensor :=
  {| t_dtype := DT_bool; t_shape := []; t_values := [Z.b2z b] |}.

Definition bool_spec : TensorSpec := {| ts_shape := []; ts_dtype := DT_bool |}.

(** The elements a dataset yields, in order: finitely many, or one for every
    position. *)
Inductive Content (A : Type) :=
| Fin (l : list A)
| Inf (f : nat -> A).
Arguments Fin {A} l.
Arguments Inf {A} f.

(** The element at position [i], if the dataset gets that far. *)
Definition at_position {A} (c : Content A) (i : nat) : option A :=
  match c with
  | Fin l => l !! i
  | Inf f => Some (f i)
  end.

(** A dataset with elements [C] (a list while it is known to be finite, a
    [Content] after [repeat]). *)
Record Dataset (C : Type) := {
  element_spec : gmap string TensorSpec;
  content : C;
  cardinality : Z
}.
Arguments element_spec {C} d.
Arguments content {C} d.
Arguments cardinality {C} d.

Definition cmap {A B} (f : A -> B) (c : Content A) : Content B :=
  match c with
  | Fin l => Fin (map f l)
  | Inf g => Inf (fun i => f (g i))
  end.

(** The first [n] items of [l], counting in [Z]. *)
Fixpoint take_z {A} (n : Z) (l : list A) : list A :=
  match l with
  | [] => []
  | x :: r => if n <=? 0 then [] else x :: take_z (n - 1) r
  end.

(** [l] cut in consecutive groups of [b]; a last partial group is dropped. *)
Fixpoint chunks {A} (fuel b : nat) (l : list A) : list (list A) :=
  match fuel with
  | O => []
  | S fuel =>
    if (b <=? length l)%nat then take b l :: chunks fuel b (drop b l) else []
  end.

(** [ds.filter(predicate)]: the count is no longer known. *)
Definition ds_filter {A} (p : A -> bool) (ds : Dataset (list A)) : Dataset (list A) :=
  {| element_spec := element_spec ds;
     content := List.filter p (content ds);
     cardinality := UNKNOWN_CARDINALITY |}.

(** [ds.cache()] *)
Definition ds_cache {A} (ds : Dataset (list A)) : Dataset (list A) := ds.

(** [ds.repeat(count)]: forever when [count] is [None] or negative. *)
Definition ds_repeat {A} (count : option Z) (ds : Dataset (list A)) : Dataset (Content A) :=
  let count := match count with None => -1 | Some c => c end in
  let n := cardinality ds in
  {| element_spec := element_spec ds;
     content :=
       if count <? 0 then
         match content ds with
         | [] => Fin []
         | x :: _ => Inf (fun i => nth (i mod length (content ds))%nat (content ds) x)
         end
       else Fin (concat (replicate (Z.to_nat count) (content ds)));
     cardinality :=
       if count <? 0 then (if n =? 0 then 0 else INFINITE_CARDINALITY)
       else if count =? 0 then 0
       else if (n =? INFINITE_CARDINALITY) || (n =? UNKNOWN_CARDINALITY) then n
       else wrap_signed 64 (count * n) |}.

(** [ds.map(f)]; [spec] is the structure of what [f] returns. *)
Definition ds_map {A B} (f : A -> B) (spec : gmap string TensorSpec)
    (ds : Dataset (Content A)) : Dataset (Content B) :=
  {| element_spec := spec;
     content := cmap f (content ds);
     cardinality := cardinality ds |}.

(** [ds.enumerate().map(f)].  [enumerate] zips the dataset with the counter
    [Dataset.range(0, int64 max)], which ends the dataset when the counter
    runs out. *)
Definition ds_enumerate_map {A B} (f : Z -> A -> B) (spec : gmap string TensorSpec)
    (ds : Dataset (Content A)) : Dataset (Content B) :=
  let n := cardinality ds in
  {| element_spec := spec;
     content :=
       match content ds with
       | Fin l => Fin (imap (fun i x => f (Z.of_nat i) x) (take_z int64_max l))
       | Inf g => Fin (map (fun i => f (Z.of_nat i) (g i)) (seq 0 (Z.to_nat int64_max)))
       end;
     cardinality :=
       if n =? UNKNOWN_CARDINALITY then UNKNOWN_CARDINALITY
       else if n =? INFINITE_CARDINALITY then int64_max
       else Z.min n int64_max |}.

(** [a.concatenate(b)] *)
Definition ds_concatenate {A} (a b : Dataset (Content A)) : Dataset (Content A) :=
  let n1 := cardinality a in
  let n2 := cardinality b in
  {| element_spec := element_spec a;
     content :=
       match content a, content b with
       | Fin l1, Fin l2 => Fin (l1 ++ l2)
       | Fin l1, Inf g =>
         Inf (fun i => match l1 !! i with Some x => x | None => g (i - length l1)%nat end)
       | Inf f, _ => Inf f
       end;
     cardinality :=
       if (n1 =? INFINITE_CARDINALITY) || (n2 =? INFINITE_CARDINALITY) then INFINITE_CARDINALITY
       else if (n1 =? UNKNOWN_CARDINALITY) || (n2 =? UNKNOWN_CARDINALITY) then UNKNOWN_CARDINALITY
       else n1 + n2 |}.

(** A batched element: a stack of examples, or of stacks. *)
Inductive Elem (F : Type) :=
| Ex (features : F)
| Batch (items : list (Elem F)).
Arguments Ex {F} features.
Arguments Batch {F} items.

Definition batched_spec (batch_size : Z) (s : TensorSpec) : TensorSpec :=
  {| ts_shape := Some batch_size :: ts_shape s; ts_dtype := ts_dtype s |}.

(** [ds.batch(batch_size, drop_remainder=True)]: a [ValueError] for a
    negative size (it would be a negative dimension), an
    [InvalidArgumentError] for the size zero. *)
Definition ds_batch {F} (batch_size : Z) (ds : Dataset (Content (Elem F)))
  : result (Dataset (Content (Elem F))) :=
  if batch_size <? 0 then Raise (ValueError (NegativeDimension batch_size))
  else if batch_size =? 0 then Raise InvalidArgumentError
  else
    let b := Z.to_nat batch_size in
    let n := cardinality ds in
    Ok {| element_spec := batched_spec batch_size <$> element_spec ds;
          content :=
            match content ds with
            | Fin l => Fin (map Batch (chunks (length l) b l))
            | Inf f => Inf (fun k => Batch (map f (seq (k * b) b)))
            end;
          cardinality :=
            if (n =? INFINITE_CARDINALITY) || (n =? UNKNOWN_CARDINALITY) then n
            else n / batch_size |}.

(** [ds.prefetch(buffer_size)]: [-1] is [AUTOTUNE]; a smaller size is an
    [InvalidArgumentError]. *)
Definition ds_prefetch {A} (buffer_size : Z) (ds : Dataset (Content A))
  : result (Dataset (Content A)) :=
  if buffer_size <? -1 then Raise InvalidArgumentError else Ok ds.

End Tf.
Export Tf.

(** ** The pipeline assembler *)

(** An example: feature name to tensor. *)
Abbreviation Features := (gmap string Tensor).
Abbreviation Spec := (gmap string TensorSpec).

(** A [jax.random.PRNGKey]: two unsigned 32-bit words. *)
Definition Key : Type := Z * Z.

Definition key_tensor (k : Key) : Tensor :=
  {| t_dtype := DT_uint32; t_shape := [2]; t_values := [fst k; snd k] |}.

(** The structure of the seed [stateless_fold_in] returns: it has the dtype
    of the index folded in. *)
Definition rng_spec : TensorSpec := {| ts_shape := [Some 2]; ts_dtype := DT_int32 |}.

(** The functions of the collaborating libraries whose results the source
    only passes on. *)
Record Ops := {
  (** [ds.shuffle(buffer_size, seed=seed)] on the elements *)
  tf_shuffle : Z -> option Z -> Content Features -> Content Features;
  (** [tf.random.experimental.stateless_fold_in(seed, data)] *)
  stateless_fold_in : Tensor -> Z -> Tensor;
  (** [jax.random.split(key, num)] *)
  jax_random_split : Key -> Z -> list Key
}.

Record DatasetOptions := {
  map_parallelization : bool;
  private_threadpool_size : Z;
  max_intra_op_parallelism : Z
}.

(** [tfds.ReadConfig(shuffle_seed=..., options=...)] *)
Record ReadConfig := {
  shuffle_seed : option Z;
  options : DatasetOptions
}.

Inductive Split :=
| SplitName (name : string)
| SplitInstruction (ri : ReadInstruction).

Inductive Decoder := SkipDecoding.

(** A dataset builder: an object with an [as_dataset()] method, which
    materialises the finitely many examples of a split. *)
Record DatasetBuilder := {
  as_dataset : Split -> bool -> ReadConfig -> option (gmap string Decoder) -> Dataset (list Features)
}.

(** A preprocessing function, with the structure of what it returns for
    examples of a given structure. *)
Record PreprocessFn := {
  pp_call : Features -> Features;
  pp_spec : Spec -> Spec
}.

(** An item of the list [rngs]: a key, or the list [[None, None]]. *)
Inductive RngItem :=
| KeyItem (k : Key)
| NonePair.

(** [item[0]] *)
Definition item0 (r : RngItem) : option Z :=
  match r with
  | KeyItem k => Some (fst k)
  | NonePair => None
  end.

(** The keyword arguments of [create_dataset]. *)
Record Args := {
  split : Split;
  batch_dims : list Z;
  rng : option Key;
  filter_fn : option (Features -> bool);
  preprocess_fn : option PreprocessFn;
  decoders : option (gmap string Decoder);
  cache : bool;
  num_epochs : option Z;
  shuffle : bool;
  shuffle_buffer_size : Z;
  prefetch_size : Z;
  pad_up_to_batches : option Z
}.

(** The defaults of the signature, for a given [split]. *)
Definition default_args (s : Split) : Args :=
  {| split := s; batch_dims := []; rng := None; filter_fn := None;
     preprocess_fn := None; decoders := None; cache := false; num_epochs := None;
     shuffle := true; shuffle_buffer_size := 10000; prefetch_size := 4;
     pad_up_to_batches := None |}.

Section Assembler.

Variable ops : Ops.

(** [ds.shuffle(buffer_size, seed)]: an [InvalidArgumentError] unless the
    buffer size is positive. *)
Definition ds_shuffle (buffer_size : Z) (seed : option Z)
    (ds : Dataset (Content Features)) : result (Dataset (Content Features)) :=
  if buffer_size <=? 0 then Raise InvalidArgumentError
  else
    Ok {| element_spec := element_spec ds;
          content := tf_shuffle ops buffer_size seed (content ds);
          cardinality := cardinality ds |}.

(** The index [_fn] hands to the fold. *)
Definition folded_index (example_index : Z) : Z := cast_int32 example_index.

(** The features [_fn] hands to [preprocess_fn]. *)
Definition with_rng (rng : Key) (example_index : Z) (features : Features) : Features :=
  let example_index := folded_index example_index in
  <["rng" := stateless_fold_in ops (cast_int64 (key_tensor rng)) example_index]> features.

(** The inner function [_fn] of [_preprocess_with_per_example_rng].  What
    [preprocess_fn] returns is a dictionary of tensors, as the docstring of
    [create_dataset] asks, so [isinstance(processed, dict)] holds. *)
Definition _fn (preprocess_fn : PreprocessFn) (rng : Key)
    (example_index : Z) (features : Features) : Features :=
  let features := with_rng rng example_index features in
  let processed := pp_call preprocess_fn features in
  if bool_decide ("rng" ∈ dom processed) then delete "rng" processed
  else processed.

Definition _preprocess_with_per_example_rng (ds : Dataset (Content Features))
    (preprocess_fn : PreprocessFn) (rng : Key) : Dataset (Content Features) :=
  ds_enumerate_map (_fn preprocess_fn rng)
    (delete "rng" (pp_spec preprocess_fn (<["rng" := rng_spec]> (element_spec ds))))
    ds.

(** Lines 222-256 of [create_dataset]: the seed check, reading, filtering,
    repeating, shuffling and preprocessing. *)
Definition examples_stage (dataset_builder : DatasetBuilder) (a : Args)
  : result (Dataset (Content Features)) :=
  let rng_available := bool_decide (rng a <> None) in
  if negb rng_available && shuffle a then Raise (ValueError SetRngWhenShuffling)
  else
    let rngs :=
      match rng a with
      | Some r => map KeyItem (jax_random_split ops r 3)
      | None => replicate 3 NonePair
      end in
    let dataset_options :=
      {| map_parallelization := true; private_threadpool_size := 48;
         max_intra_op_parallelism := 1 |} in
    '(item, rngs) ← pop rngs;
    let read_config := {| shuffle_seed := item0 item; options := dataset_options |} in
    let ds := as_dataset dataset_builder (split a) (shuffle a) read_config (decoders a) in
    let ds := match filter_fn a with Some f => ds_filter f ds | None => ds end in
    let ds := if cache a then ds_cache ds else ds in
    let ds := ds_repeat (num_epochs a) ds in
    '(ds, rngs) ←
      (if shuffle a then
         '(item, rngs) ← pop rngs;
         ds ← ds_shuffle (shuffle_buffer_size a) (item0 item) ds;
         mret (ds, rngs)
       else mret (ds, rngs));
    match preprocess_fn a with
    | Some f =>
      if rng_available then
        '(item, rngs) ← pop rngs;
        match item with
        | KeyItem k => mret (_preprocess_with_per_example_rng ds f k)
        | NonePair => Raise (TypeError NoMessage)
        end
      else mret (ds_map (pp_call f) (pp_spec f (element_spec ds)) ds)
    | None => mret ds
    end.

(** [{name: tf.zeros(spec.shape, spec.dtype)[None] for name, spec in
    ds.element_spec.items()}]: the first failing [tf.zeros] ends it. *)
Definition zeros_features (spec : Spec) : result Features :=
  map_fold (fun name s acc => m ← acc; t ← zeros s; mret (<[name := t]> m))
    (mret ∅) spec.

(** The record [filler_ds] holds: the zeros, and [mask=False]. *)
Definition filler (zero_features : Features) : Features :=
  <["mask" := bool_scalar false]> zero_features.

(** [dict(mask=True, **features)] *)
Definition mark (features : Features) : Features :=
  <["mask" := bool_scalar true]> features.

(** Lines 258-273: the body of [if pad_up_to_batches:].  The zeros are
    computed before [dict(..., mask=[False])] is called. *)
Definition padding_stage (batch_dims : list Z) (pad_up_to_batches : Z)
    (ds : Dataset (Content Features)) : result (Dataset (Content Features)) :=
  let spec := element_spec ds in
  zero_features ← zeros_features spec;
  if bool_decide ("mask" ∈ dom spec) then Raise (TypeError (DuplicateKeyword "mask"))
  else
    let filler_ds : Dataset (list Features) :=
      {| element_spec := <["mask" := bool_spec]> spec;
         content := [filler zero_features];
         cardinality := 1 |} in
    let ds := ds_map mark (<["mask" := bool_spec]> spec) ds in
    let padding :=
      np_sub (np_mul pad_up_to_batches (np_prod batch_dims)) (cardinality ds) in
    _ ← assert (padding >=? 0)
          (InvalidPadding padding batch_dims (cardinality ds) pad_up_to_batches);
    mret (ds_concatenate ds (ds_repeat (Some padding) filler_ds)).

(** Lines 275-277: one [batch] per batch dimension, innermost first. *)
Fixpoint batch_loop (sizes : list Z) (ds : Dataset (Content (Elem Features)))
  : result (Dataset (Content (Elem Features))) :=
  match sizes with
  | [] => mret ds
  | batch_size :: sizes => ds ← ds_batch batch_size ds; batch_loop sizes ds
  end.

Definition batching_stage (batch_dims : list Z) (ds : Dataset (Content Features))
  : result (Dataset (Content (Elem Features))) :=
  batch_loop (rev batch_dims)
    {| element_spec := element_spec ds; content := cmap Ex (content ds);
       cardinality := cardinality ds |}.

Definition create_dataset (dataset_builder : DatasetBuilder) (a : Args)
  : result (Dataset (Content (Elem Features))) :=
  ds ← examples_stage dataset_builder a;
  ds ← (if truthy (pad_up_to_batches a)
        then padding_stage (batch_dims a) (default 0 (pad_up_to_batches a)) ds
        else mret ds);
  ds ← batching_stage (batch_dims a) ds;
  ds_prefetch (prefetch_size a) ds.

End Assembler.

(** ** Observations and fixtures used in the examples *)

(** The value of the ["mask"] feature of an example. *)
Definition mask_of (features : Features) : option bool :=
  match features !! "mask" with
  | Some t =>
    match t_values t with
    | [v] => Some (negb (v =? 0))
    | _ => None
    end
  | None => None
  end.

(** The examples of a batched element, outermost batch first. *)
Fixpoint examples_of {F} (e : Elem F) : list F :=
  match e with
  | Ex f => [f]
  | Batch items =>
    (fix go (l : list (Elem F)) : list F :=
       match l with
       | [] => []
       | x :: r => examples_of x ++ go r
       end) items
  end.

(** The masks of every element of a finite dataset. *)
Definition masks (r : result (Dataset (Content (Elem Features))))
  : option (list (list (option bool))) :=
  match r with
  | Ok ds =>
    match content ds with
    | Fin l => Some (map (fun e => map mask_of (examples_of e)) l)
    | Inf _ => None
    end
  | Raise _ => None
  end.

Module Fixture.

Definition rt0 : JaxRuntime := {| jax_host_id := 0; jax_host_count := 2 |}.
Definition rt1 : JaxRuntime := {| jax_host_id := 1; jax_host_count := 2 |}.

(** Stand-ins for the library functions: no reordering, a fold that records
    its arguments, a split that numbers the sub-keys. *)
Definition ops0 : Ops :=
  {| tf_shuffle := fun _ _ c => c;
     stateless_fold_in := fun seed i =>
       {| t_dtype := DT_int32; t_shape := [2]; t_values := [hd 0 (t_values seed); i] |};
     jax_random_split := fun k n => map (fun i => (fst k, Z.of_nat i)) (seq 0 (Z.to_nat n)) |}.

Definition id_spec : Spec := {[ "id" := {| ts_shape := []; ts_dtype := DT_int64 |} ]}.

Definition example (i : Z) : Features :=
  {[ "id" := {| t_dtype := DT_int64; t_shape := []; t_values := [i] |} ]}.

(** A builder whose split holds the examples [0 .. n-1]. *)
Definition range_builder (n : nat) : DatasetBuilder :=
  {| as_dataset := fun _ _ _ _ =>
       {| element_spec := id_spec;
          content := map (fun i => example (Z.of_nat i)) (seq 0 n);
          cardinality := Z.of_nat n |} |}.

Definition identity_fn : PreprocessFn :=
  {| pp_call := fun f => f; pp_spec := fun s => s |}.

(** One pass over the split "test", unshuffled, in batches of four. *)
Definition eval_args : Args :=
  {| split := SplitName "test"; batch_dims := [4]; rng := None; filter_fn := None;
     preprocess_fn := None; decoders := None; cache := false; num_epochs := Some 1;
     shuffle := false; shuffle_buffer_size := 10000; prefetch_size := 4;
     pad_up_to_batches := None |}.

End Fixture.

(** [a] with another [pad_up_to_batches]. *)
Definition set_pad_up_to_batches (p : option Z) (a : Args) : Args :=
  {| split := split a; batch_dims := batch_dims a; rng := rng a; filter_fn := filter_fn a;
     preprocess_fn := preprocess_fn a; decoders := decoders a; cache := cache a;
     num_epochs := num_epochs a; shuffle := shuffle a;
     shuffle_buffer_size := shuffle_buffer_size a; prefetch_size := prefetch_size a;
     pad_up_to_batches := p |}.

(** [a] with another [filter_fn]. *)
Definition set_filter_fn (f : option (Features -> bool)) (a : Args) : Args :=
  {| split := split a; batch_dims := batch_dims a; rng := rng a; filter_fn := f;
     preprocess_fn := preprocess_fn a; decoders := decoders a; cache := cache a;
     num_epochs := num_epochs a; shuffle := shuffle a;
     shuffle_buffer_size := shuffle_buffer_size a; prefetch_size := prefetch_size a;
     pad_up_to_batches := pad_up_to_batches a |}.

(** Whatever [r] raises satisfies [P]. *)
Definition raises_within {A} (P : exn -> Prop) (r : result A) : Prop :=
  forall e, r = Raise e -> P e.

(** What the examples stage can raise. *)
Definition examples_stage_exn (e : exn) : Prop :=
  e = ValueError SetRngWhenShuffling \/ e = IndexError \/ e = TypeError NoMessage
  \/ e = InvalidArgumentError.

(** What the padding stage can raise. *)
Definition padding_stage_exn (e : exn) : Prop :=
  e = ValueError PartiallyKnownShape \/
  e = TypeError (DuplicateKeyword "mask") \/
  exists padding dims card pad, e = AssertionError (InvalidPadding padding dims card pad).

(** What [batch] and [prefetch] can raise. *)
Definition batching_exn (e : exn) : Prop :=
  e = InvalidArgumentError \/ exists d, e = ValueError (NegativeDimension d).

(** ** The distributed wrapper and the decoder helper *)

(** The options [create_dataset] sets on every dataset it reads. *)
Definition pipeline_options : DatasetOptions :=
  {| map_parallelization := true; private_threadpool_size := 48;
     max_intra_op_parallelism := 1 |}.

(** A [tf.distribute.InputContext], as far as [dataset_fn] uses it: the id of
    the input pipeline and the method [get_per_replica_batch_size], which is
    the strategy's own. *)
Record InputContext := {
  input_pipeline_id : Z;
  get_per_replica_batch_size : Z -> result Z
}.

(** A [tf.distribute.Strategy], as far as the wrapper uses it:
    [experimental_distribute_datasets_from_function(dataset_fn)] calls
    [dataset_fn] once for each of its input pipelines, in order. *)
Record Strategy := {
  input_contexts : list InputContext
}.

(** A record written with [logging.info(fmt, input_context)]. *)
Inductive info_record :=
| Info (fmt : string) (input_context : InputContext).

(** The keyword arguments of [create_distributed_dataset]. *)
Record DistributedArgs := {
  d_split : Split;
  d_global_batch_size : Z;
  d_strategy : Strategy;
  d_rng : option Key;
  d_filter_fn : option (Features -> bool);
  d_preprocess_fn : option PreprocessFn;
  d_decoders : option (gmap string Decoder);
  d_cache : bool;
  d_num_epochs : option Z;
  d_shuffle : bool;
  d_shuffle_buffer_size : Z;
  d_prefetch_size : Z;
  d_pad_up_to_batches : option Z
}.

(** The arguments [dataset_fn] hands to [create_dataset]. *)
Definition worker_args (d : DistributedArgs) (local_rng : option Key)
    (per_replica_batch_size : Z) : Args :=
  {| split := d_split d; batch_dims := [per_replica_batch_size]; rng := local_rng;
     filter_fn := d_filter_fn d; preprocess_fn := d_preprocess_fn d;
     decoders := d_decoders d; cache := d_cache d; num_epochs := d_num_epochs d;
     shuffle := d_shuffle d; shuffle_buffer_size := d_shuffle_buffer_size d;
     prefetch_size := d_prefetch_size d; pad_up_to_batches := d_pad_up_to_batches d |}.

(** One call of [dataset_fn] after the other; an exception ends the calls. *)
Fixpoint distribute {D} (dataset_fn : InputContext -> list info_record * result D)
    (contexts : list InputContext) : list info_record * result (list D) :=
  match contexts with
  | [] => ([], Ok [])
  | c :: contexts =>
    match dataset_fn c with
    | (log, Raise e) => (log, Raise e)
    | (log, Ok ds) =>
      let '(log', r) := distribute dataset_fn contexts in
      (log ++ log', r ≫= fun l => Ok (ds :: l))
    end
  end.

Section Distributed.

Variable ops : Ops.

(** [jax.random.fold_in(key, data)] *)
Variable jax_fold_in : Key -> Z -> Key.

(** The inner function [dataset_fn] of [create_distributed_dataset]. *)
Definition dataset_fn (dataset_builder : DatasetBuilder) (d : DistributedArgs)
    (input_context : InputContext)
  : list info_record * result (Dataset (Content (Elem Features))) :=
  ([Info "dataset_fn(input_context=%s)" input_context],
   let local_rng :=
     match d_rng d with
     | None => None
     | Some rng => Some (jax_fold_in rng (input_pipeline_id input_context))
     end in
   per_replica_batch_size ←
     get_per_replica_batch_size input_context (d_global_batch_size d);
   create_dataset ops dataset_builder (worker_args d local_rng per_replica_batch_size)).

Definition create_distributed_dataset (dataset_builder : DatasetBuilder)
    (d : DistributedArgs)
  : list info_record * result (list (Dataset (Content (Elem Features)))) :=
  distribute (dataset_fn dataset_builder d) (input_contexts (d_strategy d)).

End Distributed.

(** [skip_decoders(builder)], on the feature names of [builder.info.features]. *)
Definition skip_decoders (info_features : list string) : gmap string Decoder :=
  let encoded_features : gset string :=
    list_to_set info_features ∩ ({[ "image" ]} ∪ {[ "video" ]}) in
  gset_to_gmap SkipDecoding encoded_features.

(** ** Shapes of batched elements *)

(** A batched element has the batch dimensions [dims], outermost first. *)
Fixpoint has_shape {F} (dims : list nat) (e : Elem F) : Prop :=
  match dims with
  | [] => exists f, e = Ex f
  | d :: dims =>
    exists items, e = Batch items /\ length items = d
                  /\ forall x, In x items -> has_shape dims x
  end.

(** Every element the dataset yields satisfies [P]. *)
Definition every_element {A} (P : A -> Prop) (c : Content A) : Prop :=
  forall i x, at_position c i = Some x -> P x.

Module Fixture2.

Definition masked_spec : Spec :=
  {[ "mask" := {| ts_shape := []; ts_dtype := DT_bool |} ]}.

(** A builder whose examples already have a feature called "mask". *)
Definition masked_builder : DatasetBuilder :=
  {| as_dataset := fun _ _ _ _ =>
       {| element_spec := masked_spec;
          content := [ {[ "mask" := bool_scalar true ]} ];
          cardinality := 1 |} |}.

Definition fold0 (k : Key) (i : Z) : Key := (fst k, snd k + i).

(** Two input pipelines, each the eighth part of a global batch. *)
Definition context (id : Z) : InputContext :=
  {| input_pipeline_id := id;
     get_per_replica_batch_size := fun g => Ok (g / 8) |}.

Definition two_workers : Strategy := {| input_contexts := [context 0; context 1] |}.

Definition dist_args : DistributedArgs :=
  {| d_split := SplitName "train"; d_global_batch_size := 32;
     d_strategy := two_workers; d_rng := None; d_filter_fn := None;
     d_preprocess_fn := None; d_decoders := None; d_cache := false;
     d_num_epochs := Some 1; d_shuffle := false; d_shuffle_buffer_size := 10000;
     d_prefetch_size := 4; d_pad_up_to_batches := None |}.

(** The dataset [range_builder n] hands out, repeated once. *)
Definition one_epoch (n : nat) : Dataset (Content Features) :=
  ds_repeat (Some 1)
    (as_dataset (Fixture.range_builder n) (SplitName "test") false
       {| shuffle_seed := None; options := pipeline_options |} None).

End Fixture2.

(** Lines 235-248 of [create_dataset] for a given [shuffle_seed]: the
    examples read, filtered, cached and repeated. *)
Definition source_stage (dataset_builder : DatasetBuilder) (a : Args)
    (seed : option Z) : Dataset (Content Features) :=
  let read_config := {| shuffle_seed := seed; options := pipeline_options |} in
  let ds := as_dataset dataset_builder (split a) (shuffle a) read_config (decoders a) in
  let ds := match filter_fn a with Some f => ds_filter f ds | None => ds end in
  let ds := if cache a then ds_cache ds else ds in
  ds_repeat (num_epochs a) ds.

(** * Properties of the shard planner *)

Section Planner.

Variables (rt : JaxRuntime) (split : string).

Lemma num_unused_examples_bounds n H :
  1 <= H -> 0 <= num_unused_examples n H < H.
Proof.
  intros HH. unfold num_unused_examples.
  pose proof (Z.mod_pos_bound n H ltac:(lia)) as Hm.
  rewrite Z.mod_eq in Hm by lia. lia.
Qed.

(** The outcome of the planner on a valid topology, in closed form. *)
Lemma plan_value n H h drop :
  1 <= H -> 0 <= h < H ->
  let p := n / H in
  let r := num_unused_examples n H in
  plan rt split n H h drop =
    ((if drop && (0 <? r) then [Warning dropping_fmt [r; n; H]] else []),
     Ok {| ri_split := split;
           ri_from := p * h + (if drop then 0 else Z.min h r);
           ri_to := p * (h + 1) + (if drop then 0 else Z.min (h + 1) r);
           ri_unit := "abs" |}).
Proof.
  intros HH Hh p r.
  pose proof (num_unused_examples_bounds n H HH) as Hr. fold r in Hr.
  unfold plan, get_read_instruction_for_host, floordiv.
  replace (h <? 0) with false by lia.
  replace (h >=? H) with false by lia.
  replace (H <? 1) with false by lia.
  replace (H =? 0) with false by lia.
  cbn [orb]. fold p. change (n - p * H) with r.
  replace (r >=? 0) with true by lia.
  replace (r <? H) with true by lia.
  cbn [negb]. rewrite Z.gtb_ltb.
  destruct (0 <? r) eqn:Hpos; destruct drop; cbn [andb]; try reflexivity.
  all: do 2 f_equal; f_equal; lia.
Qed.

(** Ranges that start where the previous one ends tile the prefix they
    span. *)
Lemma tiling (f : Z -> Z) (k : nat) (i : Z) :
  f 0 <= i < f (Z.of_nat k) ->
  exists h, 0 <= h < Z.of_nat k /\ f h <= i < f (h + 1).
Proof.
  induction k as [|k IH]; intros Hi.
  - change (Z.of_nat 0) with 0 in Hi. lia.
  - replace (Z.of_nat (S k)) with (Z.of_nat k + 1) in * by lia.
    destruct (Z_lt_ge_dec i (f (Z.of_nat k))) as [Hlt|Hge].
    + destruct IH as (h & Hh & Hin); [lia|]. exists h. split; [lia|exact Hin].
    + exists (Z.of_nat k). split; lia.
Qed.

Lemma reads_plan n H h drop i :
  1 <= H -> 0 <= h < H ->
  reads (plan rt split n H h drop) i <->
  (n / H) * h + (if drop then 0 else Z.min h (num_unused_examples n H)) <= i
  < (n / H) * (h + 1) + (if drop then 0 else Z.min (h + 1) (num_unused_examples n H)).
Proof.
  intros HH Hh. unfold reads. rewrite (plan_value n H h drop HH Hh). cbn [snd].
  split.
  - intros (ri & Heq & Hi). inversion Heq; subst ri. exact Hi.
  - intros Hi. eexists. split; [reflexivity|exact Hi].
Qed.

End Planner.

(** Hosts whose ranges are cut at the points [f 0 <= f 1 <= ... <= f H] read
    exactly [[f 0, f H)], and no index twice. *)
Lemma partition_of_cuts (ranges : Z -> list log_record * result ReadInstruction)
    (H : Z) (f : Z -> Z) :
  1 <= H ->
  (forall h i, 0 <= h < H -> reads (ranges h) i <-> f h <= i < f (h + 1)) ->
  (forall a b, 0 <= a <= b -> b <= H -> f a <= f b) ->
  covers_exactly ranges H (f 0) (f H) /\ pairwise_disjoint ranges H.
Proof.
  intros HH Hreads Hmono. split.
  - intros i. split.
    + intros Hi. destruct (tiling f (Z.to_nat H) i) as (h & Hh & Hin).
      { rewrite Z2Nat.id by lia. exact Hi. }
      exists h. split; [lia|]. apply Hreads; [lia|exact Hin].
    + intros (h & Hh & Hr). apply Hreads in Hr; [|exact Hh].
      pose proof (Hmono 0 h ltac:(lia) ltac:(lia)).
      pose proof (Hmono (h + 1) H ltac:(lia) ltac:(lia)). lia.
  - intros h1 h2 i Hh1 Hh2 R1 R2.
    apply Hreads in R1; [|exact Hh1]. apply Hreads in R2; [|exact Hh2].
    destruct (Z.lt_trichotomy h1 h2) as [Hlt|[Heq|Hgt]]; [|exact Heq|].
    + pose proof (Hmono (h1 + 1) h2 ltac:(lia) ltac:(lia)). lia.
    + pose proof (Hmono (h2 + 1) h1 ltac:(lia) ltac:(lia)). lia.
Qed.

(** C1. With [drop_remainder=False], for [num_examples >= 0] and
    [host_count >= 1]: host [h] gets the range from
    [per_host*h + min(h, r)] to [per_host*(h+1) + min(h+1, r)], where
    [per_host = num_examples // host_count] and
    [r = num_examples - per_host*host_count]; every range has length
    [per_host] or [per_host + 1]; the ranges of the hosts
    [0 .. host_count-1] cover exactly [[0, num_examples)] and are pairwise
    disjoint. *)
Theorem C1_even_split_without_drop (rt : JaxRuntime) (split : string) (n H : Z) :
  0 <= n -> 1 <= H ->
  let p := n / H in
  let r := n - p * H in
  let ranges := fun h => plan rt split n H h false in
  (forall h, 0 <= h < H ->
     ranges h = ([], Ok {| ri_split := split;
                           ri_from := p * h + Z.min h r;
                           ri_to := p * (h + 1) + Z.min (h + 1) r;
                           ri_unit := "abs" |}))
  /\ (forall h ri, 0 <= h < H -> snd (ranges h) = Ok ri ->
        ri_to ri - ri_from ri = p \/ ri_to ri - ri_from ri = p + 1)
  /\ covers_exactly ranges H 0 n
  /\ pairwise_disjoint ranges H.
Proof.
  intros Hn HH p r ranges.
  assert (Hr : 0 <= r < H) by apply (num_unused_examples_bounds n H HH).
  assert (Hp : 0 <= p) by (apply Z.div_pos; lia).
  assert (Hval : forall h, 0 <= h < H ->
     ranges h = ([], Ok {| ri_split := split;
                           ri_from := p * h + Z.min h r;
                           ri_to := p * (h + 1) + Z.min (h + 1) r;
                           ri_unit := "abs" |})).
  { intros h Hh. unfold ranges. rewrite (plan_value rt split n H h false HH Hh).
    reflexivity. }
  split; [exact Hval|]. split.
  - intros h ri Hh Heq. rewrite (Hval h Hh) in Heq. cbn [snd] in Heq.
    inversion Heq; subst ri. cbn [ri_to ri_from]. lia.
  - pose (f := fun h => p * h + Z.min h r).
    destruct (partition_of_cuts ranges H f HH) as [Hcov Hdis].
    + intros h i Hh. unfold ranges. rewrite (reads_plan rt split n H h false i HH Hh).
      reflexivity.
    + intros a b Hab Hb. unfold f. nia.
    + split; [|exact Hdis].
      replace 0 with (f 0) at 1 by (unfold f; lia).
      replace n with (f H) by (unfold f, r; lia).
      exact Hcov.
Qed.

Lemma C1_witness :
  0 <= 10 /\ 1 <= 3 /\
  covers_exactly (fun h => plan Fixture.rt0 "train" 10 3 h false) 3 0 10 /\
  pairwise_disjoint (fun h => plan Fixture.rt0 "train" 10 3 h false) 3.
Proof.
  split; [lia|]. split; [lia|].
  apply (C1_even_split_without_drop Fixture.rt0 "train" 10 3); lia.
Defined.

(** C2. With [drop_remainder=True], for [num_examples >= 0] and
    [host_count >= 1]: every valid host gets the base range from
    [per_host*h] to [per_host*(h+1)], of length exactly [per_host]; the
    ranges cover exactly [[0, host_count*per_host)] and are pairwise disjoint;
    the trailing indices from [host_count*per_host] to [num_examples] are
    read by no host, and a warning reports them when there are any. *)
Theorem C2_even_split_with_drop (rt : JaxRuntime) (split : string) (n H : Z) :
  0 <= n -> 1 <= H ->
  let p := n / H in
  let ranges := fun h => plan rt split n H h true in
  (forall h, 0 <= h < H ->
     snd (ranges h) = Ok {| ri_split := split; ri_from := p * h;
                            ri_to := p * (h + 1); ri_unit := "abs" |})
  /\ (forall h ri, 0 <= h < H -> snd (ranges h) = Ok ri ->
        ri_to ri - ri_from ri = p)
  /\ covers_exactly ranges H 0 (H * p)
  /\ pairwise_disjoint ranges H
  /\ (forall i h, H * p <= i < n -> 0 <= h < H -> ~ reads (ranges h) i)
  /\ (forall h, 0 <= h < H ->
        fst (ranges h) = if 0 <? n - p * H
                         then [Warning dropping_fmt [n - p * H; n; H]] else []).
Proof.
  intros Hn HH p ranges.
  assert (Hp : 0 <= p) by (apply Z.div_pos; lia).
  assert (Hval : forall h, 0 <= h < H ->
     snd (ranges h) = Ok {| ri_split := split; ri_from := p * h;
                            ri_to := p * (h + 1); ri_unit := "abs" |}).
  { intros h Hh. unfold ranges. rewrite (plan_value rt split n H h true HH Hh).
    cbn [snd]. fold p. rewrite !Z.add_0_r. reflexivity. }
  assert (Hcov : covers_exactly ranges H 0 (H * p) /\ pairwise_disjoint ranges H).
  { pose (f := fun h => p * h).
    destruct (partition_of_cuts ranges H f HH) as [Hcov Hdis].
    - intros h i Hh. unfold ranges. rewrite (reads_plan rt split n H h true i HH Hh).
      fold p. unfold f. rewrite !Z.add_0_r. reflexivity.
    - intros a b Hab Hb. unfold f. nia.
    - split; [|exact Hdis].
      replace 0 with (f 0) at 1 by (unfold f; lia).
      replace (H * p) with (f H) by (unfold f; lia).
      exact Hcov. }
  split; [exact Hval|]. split.
  - intros h ri Hh Heq. rewrite (Hval h Hh) in Heq.
    inversion Heq; subst ri. cbn [ri_to ri_from]. lia.
  - destruct Hcov as [Hcov Hdis]. split; [exact Hcov|]. split; [exact Hdis|]. split.
    + intros i h Hi Hh Hr.
      assert (0 <= i < H * p) by (apply Hcov; exists h; split; [exact Hh|exact Hr]).
      lia.
    + intros h Hh. unfold ranges. rewrite (plan_value rt split n H h true HH Hh).
      reflexivity.
Qed.

Lemma C2_witness :
  0 <= 10 /\ 1 <= 3 /\
  covers_exactly (fun h => plan Fixture.rt0 "train" 10 3 h true) 3 0 (3 * (10 / 3)) /\
  (forall h, 0 <= h < 3 -> ~ reads (plan Fixture.rt0 "train" 10 3 h true) 9).
Proof.
  split; [lia|]. split; [lia|].
  pose proof (C2_even_split_with_drop Fixture.rt0 "train" 10 3 ltac:(lia) ltac:(lia))
    as (_ & _ & Hcov & _ & Hdropped & _).
  split; [exact Hcov|].
  intros h Hh. apply Hdropped; [|exact Hh]. change (10 / 3) with 3. lia.
Defined.

(** The examples of the documentation: ten examples on three hosts. *)
Example plan_10_on_3 :
  map (fun h => snd (plan Fixture.rt0 "train" 10 3 h false)) [0; 1; 2] =
  [Ok {| ri_split := "train"; ri_from := 0; ri_to := 4; ri_unit := "abs" |};
   Ok {| ri_split := "train"; ri_from := 4; ri_to := 7; ri_unit := "abs" |};
   Ok {| ri_split := "train"; ri_from := 7; ri_to := 10; ri_unit := "abs" |}].
Proof. reflexivity. Qed.

Example plan_10_on_3_drop :
  map (fun h => plan Fixture.rt0 "train" 10 3 h true) [0; 1; 2] =
  map (fun h => ([Warning dropping_fmt [1; 10; 3]],
                 Ok {| ri_split := "train"; ri_from := 3 * h; ri_to := 3 * h + 3;
                       ri_unit := "abs" |})) [0; 1; 2].
Proof. reflexivity. Qed.

(** C3. The planner raises its [ValueError] ("Invalid combination of host_id
    and host_count", the topology error) exactly when [host_id < 0], or
    [host_id >= host_count], or [host_count < 1]; on every other input it
    returns a read instruction.  In particular it raises for
    [host_id = host_count], for [host_id = -1] and for [host_count = 0]. *)
Theorem C3_invalid_topology (rt : JaxRuntime) (split : string) (n : Z)
    (host_id host_count : Z) (drop : bool) :
  let out := snd (plan rt split n host_count host_id drop) in
  let invalid := host_id < 0 \/ host_id >= host_count \/ host_count < 1 in
  (out = Raise (ValueError (InvalidHostCombination host_id host_count)) <-> invalid)
  /\ ((exists ri, out = Ok ri) <-> ~ invalid)
  /\ snd (plan rt split n host_count host_count drop)
       = Raise (ValueError (InvalidHostCombination host_count host_count))
  /\ snd (plan rt split n host_count (-1) drop)
       = Raise (ValueError (InvalidHostCombination (-1) host_count))
  /\ snd (plan rt split n 0 host_id drop)
       = Raise (ValueError (InvalidHostCombination host_id 0)).
Proof.
  intros out invalid.
  assert (Hbad : forall h c, h < 0 \/ h >= c \/ c < 1 ->
            snd (plan rt split n c h drop) = Raise (ValueError (InvalidHostCombination h c))).
  { intros h c Hinv. unfold plan, get_read_instruction_for_host.
    replace ((h <? 0) || (h >=? c) || (c <? 1)) with true by lia. reflexivity. }
  assert (Hgood : ~ invalid -> exists ri, out = Ok ri).
  { intros Hv. unfold invalid in Hv. unfold out.
    rewrite (plan_value rt split n host_count host_id drop) by lia.
    eexists. reflexivity. }
  destruct (Z_lt_ge_dec host_id 0) as [H0|H0];
    [|destruct (Z_lt_ge_dec host_id host_count) as [H1|H1];
      [destruct (Z_lt_ge_dec host_count 1) as [H2|H2]|]].
  all: repeat split.
  all: try (intros _; unfold invalid; lia).
  all: try (apply Hbad; lia).
  all: try (intros _; apply Hbad; lia).
  all: try (intros _; apply Hgood; unfold invalid; lia).
  all: try (unfold out; rewrite (Hbad host_id host_count) by lia;
            intros [ri Hri]; discriminate Hri).
  all: try (intros Hinv; unfold invalid in Hinv; lia).
  all: try (destruct (Hgood ltac:(unfold invalid; lia)) as [ri Hri];
            rewrite Hri; intros Hd; discriminate Hd).
Qed.

(** C4, as the code has it.  With [host_id] and [host_count] both passed, the
    outcome (range and warning) does not depend on the process: it is the
    same under any two runtimes.  An argument left out ([None]) is read from
    the process, through [jax.host_id()] and [jax.host_count()]. *)
Theorem C4_explicit_topology_is_pure (rt rt' : JaxRuntime) (split : string) (n : Z)
    (host_id host_count : Z) (drop : bool) :
  get_read_instruction_for_host rt split n (Some host_id) (Some host_count) drop
    = get_read_instruction_for_host rt' split n (Some host_id) (Some host_count) drop
  /\ get_read_instruction_for_host rt split n None None drop
    = get_read_instruction_for_host rt' split n
        (Some (jax_host_id rt)) (Some (jax_host_count rt)) drop
  /\ get_read_instruction_for_host rt split n None (Some host_count) drop
    = get_read_instruction_for_host rt' split n (Some (jax_host_id rt)) (Some host_count) drop
  /\ get_read_instruction_for_host rt split n (Some host_id) None drop
    = get_read_instruction_for_host rt' split n (Some host_id) (Some (jax_host_count rt)) drop.
Proof. repeat split; reflexivity. Qed.

(** C4 as stated fails: the same call, with the topology left to its
    defaults, returns different ranges in two processes. *)
Lemma C4_counterexample :
  snd (get_read_instruction_for_host Fixture.rt0 "train" 10 None None true)
    = Ok {| ri_split := "train"; ri_from := 0; ri_to := 5; ri_unit := "abs" |}
  /\ snd (get_read_instruction_for_host Fixture.rt1 "train" 10 None None true)
    = Ok {| ri_split := "train"; ri_from := 5; ri_to := 10; ri_unit := "abs" |}
  /\ get_read_instruction_for_host Fixture.rt0 "train" 10 None None true
     <> get_read_instruction_for_host Fixture.rt1 "train" 10 None None true.
Proof. split; [reflexivity|split; [reflexivity|discriminate]]. Qed.

(** C8. For [num_examples >= 0], [host_count >= 1] and a valid [host_id],
    the remainder [num_examples - (num_examples // host_count) * host_count]
    lies in [[0, host_count)], and neither assertion of the planner fails:
    the call raises no [AssertionError] (nor any other exception). *)
Theorem C8_remainder_in_range (rt : JaxRuntime) (split : string) (n H h : Z) (drop : bool) :
  0 <= n -> 1 <= H -> 0 <= h < H ->
  0 <= num_unused_examples n H < H
  /\ (forall msg, snd (plan rt split n H h drop) <> Raise (AssertionError msg))
  /\ (forall e, snd (plan rt split n H h drop) <> Raise e).
Proof.
  intros Hn HH Hh. split; [apply num_unused_examples_bounds; exact HH|].
  rewrite (plan_value rt split n H h drop HH Hh). cbn [snd].
  split; intros ? Hd; discriminate Hd.
Qed.

Lemma C8_witness :
  0 <= 10 /\ 1 <= 3 /\ 0 <= 2 < 3 /\ 0 <= num_unused_examples 10 3 < 3.
Proof.
  split; [lia|]. split; [lia|]. split; [lia|].
  apply (C8_remainder_in_range Fixture.rt0 "train" 10 3 2 false); lia.
Defined.

(** * Properties of the pipeline assembler *)

Lemma raises_within_ok {A} (P : exn -> Prop) (a : A) : raises_within P (Ok a).
Proof. intros e He. discriminate He. Qed.

Lemma raises_within_raise {A} (P : exn -> Prop) (e : exn) :
  P e -> raises_within P (@Raise A e).
Proof. intros HP e' He. inversion He; subst. exact HP. Qed.

Lemma raises_within_bind {A B} (P : exn -> Prop) (r : result A) (k : A -> result B) :
  raises_within P r -> (forall a, r = Ok a -> raises_within P (k a)) ->
  raises_within P (r ≫= k).
Proof.
  intros Hr Hk e. destruct r as [a|e']; cbn.
  - apply (Hk a eq_refl).
  - intros He. apply Hr. inversion He. reflexivity.
Qed.

Lemma raises_within_weaken {A} (P Q : exn -> Prop) (r : result A) :
  (forall e, P e -> Q e) -> raises_within P r -> raises_within Q r.
Proof. intros HPQ Hr e He. apply HPQ, Hr, He. Qed.

Lemma pop_raises {A} (l : list A) : raises_within (fun e => e = IndexError) (pop l).
Proof.
  unfold pop. destruct (rev l); [apply raises_within_raise; reflexivity|apply raises_within_ok].
Qed.

(** ** 64-bit arithmetic *)

Lemma wrap_signed_64_range (z : Z) : - 2 ^ 63 <= wrap_signed 64 z < 2 ^ 63.
Proof.
  unfold wrap_signed. change (2 ^ (64 - 1)) with (2 ^ 63).
  change (2 ^ 64) with (2 * 2 ^ 63).
  pose proof (Z.mod_pos_bound (z + 2 ^ 63) (2 * 2 ^ 63) ltac:(lia)). lia.
Qed.

Lemma wrap_signed_64_id (z : Z) : - 2 ^ 63 <= z < 2 ^ 63 -> wrap_signed 64 z = z.
Proof.
  intros Hz. unfold wrap_signed. change (2 ^ (64 - 1)) with (2 ^ 63).
  change (2 ^ 64) with (2 * 2 ^ 63).
  rewrite Z.mod_small by lia. lia.
Qed.

Lemma product_pos (dims : list Z) : Forall (fun b => 0 < b) dims -> 0 < product dims.
Proof.
  induction 1 as [|b dims Hb _ IH]; [reflexivity|].
  change (product (b :: dims)) with (b * product dims). nia.
Qed.

(** While the product stays below [2^63], [np.prod] is the product. *)
Lemma np_prod_product (dims : list Z) :
  Forall (fun b => 0 < b) dims -> product dims < 2 ^ 63 ->
  np_prod dims = product dims.
Proof.
  induction 1 as [|b dims Hb Hpos IH]; intros Hlt; [reflexivity|].
  change (np_prod (b :: dims)) with (np_mul b (np_prod dims)).
  change (product (b :: dims)) with (b * product dims) in *.
  pose proof (product_pos dims Hpos) as Hp.
  rewrite IH by nia. unfold np_mul. apply wrap_signed_64_id. nia.
Qed.

(** ** The zeros of the filler record *)

Lemma zeros_static (s : TensorSpec) :
  (exists t, zeros s = Ok t) <-> is_Some (static_shape (ts_shape s)).
Proof.
  unfold zeros. destruct (static_shape (ts_shape s)) as [sh|].
  - split; [intros _; exists sh; reflexivity|intros _; eexists; reflexivity].
  - split; [intros [t Ht]; discriminate Ht|intros [sh Hsh]; discriminate Hsh].
Qed.

Lemma zeros_features_spec (spec : Spec) :
  match zeros_features spec with
  | Ok z =>
    forall name,
      match spec !! name with
      | Some s => exists t, zeros s = Ok t /\ z !! name = Some t
      | None => z !! name = None
      end
  | Raise e =>
    e = ValueError PartiallyKnownShape
    /\ exists name s, spec !! name = Some s /\ static_shape (ts_shape s) = None
  end.
Proof.
  unfold zeros_features.
  apply (map_fold_weak_ind
    (fun (r : result Features) (m : Spec) =>
       match r with
       | Ok z =>
         forall name,
           match m !! name with
           | Some s => exists t, zeros s = Ok t /\ z !! name = Some t
           | None => z !! name = None
           end
       | Raise e =>
         e = ValueError PartiallyKnownShape
         /\ exists name s, m !! name = Some s /\ static_shape (ts_shape s) = None
       end)).
  - intros name. cbn. rewrite !lookup_empty. reflexivity.
  - intros i x m r Hi Hr. destruct r as [z|e]; cbn.
    + destruct (zeros x) as [t|e] eqn:Hz; cbn.
      * intros name. destruct (decide (i = name)) as [->|Hne].
        -- rewrite !lookup_insert_eq. exists t. split; [exact Hz|reflexivity].
        -- rewrite !lookup_insert_ne by exact Hne. apply Hr.
      * unfold zeros in Hz.
        destruct (static_shape (ts_shape x)) eqn:Hs; [discriminate Hz|].
        inversion Hz. split; [reflexivity|].
        exists i, x. rewrite lookup_insert_eq. split; [reflexivity|exact Hs].
    + destruct Hr as (-> & name & s0 & Hname & Hs). split; [reflexivity|].
      exists name, s0. split; [|exact Hs].
      rewrite lookup_insert_ne; [exact Hname|]. intros ->. congruence.
Qed.

Lemma zeros_features_raises (spec : Spec) :
  raises_within (fun e => e = ValueError PartiallyKnownShape) (zeros_features spec).
Proof.
  intros e He. pose proof (zeros_features_spec spec) as H.
  rewrite He in H. apply H.
Qed.

(** When every shape is fully known the zeros are built. *)
Lemma zeros_features_static (spec : Spec) :
  (forall name s, spec !! name = Some s -> is_Some (static_shape (ts_shape s))) ->
  exists z, zeros_features spec = Ok z.
Proof.
  intros Hall. pose proof (zeros_features_spec spec) as H.
  destruct (zeros_features spec) as [z|e]; [exists z; reflexivity|].
  destruct H as (_ & name & s & Hname & Hs).
  destruct (Hall name s Hname) as [sh Hsh]. congruence.
Qed.

(** One shape with an unknown dimension is enough for the [ValueError]. *)
Lemma zeros_features_unknown (spec : Spec) (name : string) (s : TensorSpec) :
  spec !! name = Some s -> static_shape (ts_shape s) = None ->
  zeros_features spec = Raise (ValueError PartiallyKnownShape).
Proof.
  intros Hname Hs. pose proof (zeros_features_spec spec) as H.
  destruct (zeros_features spec) as [z|e].
  - specialize (H name). rewrite Hname in H. destruct H as (t & Ht & _).
    unfold zeros in Ht. rewrite Hs in Ht. discriminate Ht.
  - destruct H as [-> _]. reflexivity.
Qed.

(** The zeros hold one tensor per feature: the zeros of its shape and type. *)
Lemma zeros_features_lookup (spec : Spec) (z : Features) (name : string) (s : TensorSpec) :
  zeros_features spec = Ok z -> spec !! name = Some s ->
  exists t, zeros s = Ok t /\ z !! name = Some t.
Proof.
  intros Hz Hname. pose proof (zeros_features_spec spec) as H.
  rewrite Hz in H. specialize (H name). rewrite Hname in H. exact H.
Qed.

Section AssemblerFacts.

Variables (ops : Ops) (dataset_builder : DatasetBuilder).

Lemma ds_shuffle_raises buffer_size seed ds :
  raises_within (fun e => e = InvalidArgumentError)
    (ds_shuffle ops buffer_size seed ds).
Proof.
  unfold ds_shuffle. destruct (buffer_size <=? 0);
    [apply raises_within_raise; reflexivity|apply raises_within_ok].
Qed.

Lemma examples_stage_after_check a :
  negb (bool_decide (rng a <> None)) && shuffle a = false ->
  raises_within
    (fun e => e = IndexError \/ e = TypeError NoMessage \/ e = InvalidArgumentError)
    (examples_stage ops dataset_builder a).
Proof.
  intros Hcheck. unfold examples_stage. rewrite Hcheck.
  apply raises_within_bind.
  { eapply raises_within_weaken; [|apply pop_raises]. intros e ->. left; reflexivity. }
  intros [item rngs] _.
  apply raises_within_bind.
  { destruct (shuffle a); [|apply raises_within_ok].
    apply raises_within_bind.
    - eapply raises_within_weaken; [|apply pop_raises]. intros e ->. left; reflexivity.
    - intros [item' rngs'] _. apply raises_within_bind; [|intros; apply raises_within_ok].
      eapply raises_within_weaken; [|apply ds_shuffle_raises].
      intros e ->. right; right; reflexivity. }
  intros [ds rngs'] _.
  destruct (preprocess_fn a) as [f|]; [|apply raises_within_ok].
  destruct (bool_decide (rng a <> None)); [|apply raises_within_ok].
  apply raises_within_bind.
  { eapply raises_within_weaken; [|apply pop_raises]. intros e ->. left; reflexivity. }
  intros [[k|] rngs''] _; [apply raises_within_ok|].
  apply raises_within_raise. right; left; reflexivity.
Qed.

Lemma examples_stage_raises a :
  raises_within examples_stage_exn (examples_stage ops dataset_builder a).
Proof.
  destruct (negb (bool_decide (rng a <> None)) && shuffle a) eqn:Hcheck.
  - unfold examples_stage. rewrite Hcheck. apply raises_within_raise. left. reflexivity.
  - eapply raises_within_weaken; [|apply examples_stage_after_check; exact Hcheck].
    unfold examples_stage_exn. intros e [->|[->| ->]]; auto.
Qed.

Lemma padding_stage_raises dims pad ds :
  raises_within padding_stage_exn (padding_stage dims pad ds).
Proof.
  unfold padding_stage. apply raises_within_bind.
  { eapply raises_within_weaken; [|apply zeros_features_raises].
    intros e ->. left. reflexivity. }
  intros z _.
  destruct (bool_decide ("mask" ∈ dom (element_spec ds))).
  { apply raises_within_raise. right; left. reflexivity. }
  apply raises_within_bind; [|intros; apply raises_within_ok].
  unfold assert. destruct (_ >=? 0); [apply raises_within_ok|].
  apply raises_within_raise. right; right. eauto.
Qed.

Lemma ds_batch_raises (b : Z) (ds : Dataset (Content (Elem Features))) :
  raises_within batching_exn (ds_batch b ds).
Proof.
  unfold ds_batch. destruct (b <? 0).
  { apply raises_within_raise. right. eauto. }
  destruct (b =? 0); [apply raises_within_raise; left; reflexivity|].
  apply raises_within_ok.
Qed.

Lemma batch_loop_raises sizes (ds : Dataset (Content (Elem Features))) :
  raises_within batching_exn (batch_loop sizes ds).
Proof.
  revert ds. induction sizes as [|b sizes IH]; intros ds; cbn [batch_loop].
  - apply raises_within_ok.
  - apply raises_within_bind; [apply ds_batch_raises|intros; apply IH].
Qed.

Lemma ds_prefetch_raises {A} (size : Z) (ds : Dataset (Content A)) :
  raises_within batching_exn (ds_prefetch size ds).
Proof.
  unfold ds_prefetch. destruct (size <? -1);
    [apply raises_within_raise; left; reflexivity|apply raises_within_ok].
Qed.

Lemma batch_loop_succeeds sizes (ds : Dataset (Content (Elem Features))) :
  Forall (fun b => 0 < b) sizes -> exists ds', batch_loop sizes ds = Ok ds'.
Proof.
  intros Hpos. revert ds. induction Hpos as [|b sizes Hb _ IH]; intros ds; cbn [batch_loop].
  - eexists. reflexivity.
  - unfold ds_batch. replace (b <? 0) with false by lia.
    replace (b =? 0) with false by lia. cbn. apply IH.
Qed.

(** Without a seed and with [shuffle=True] the first statement raises. *)
Lemma examples_stage_missing_seed a :
  shuffle a = true -> rng a = None ->
  examples_stage ops dataset_builder a = Raise (ValueError SetRngWhenShuffling).
Proof. intros Hs Hr. unfold examples_stage. rewrite Hs, Hr. reflexivity. Qed.

(** In every other case the seed check passes; what the examples stage
    raises afterwards is no [ValueError]. *)
Lemma examples_stage_seed_check_passes a m :
  examples_stage ops dataset_builder a = Raise (ValueError m) ->
  shuffle a = true /\ rng a = None.
Proof.
  intros He.
  destruct (negb (bool_decide (rng a <> None)) && shuffle a) eqn:Hcheck.
  - apply andb_true_iff in Hcheck as [Hr Hs]. split; [exact Hs|].
    destruct (rng a); [discriminate Hr|reflexivity].
  - destruct (examples_stage_after_check a Hcheck _ He) as [Hd|[Hd|Hd]]; discriminate Hd.
Qed.

End AssemblerFacts.

Section AssemblerStages.

Variables (ops : Ops) (dataset_builder : DatasetBuilder).

(** An exception of [create_dataset] is one of its examples stage, of the
    padding stage, or of [batch] and [prefetch]. *)
Lemma create_dataset_raises a :
  raises_within
    (fun e => examples_stage ops dataset_builder a = Raise e
              \/ padding_stage_exn e \/ batching_exn e)
    (create_dataset ops dataset_builder a).
Proof.
  unfold create_dataset.
  destruct (examples_stage ops dataset_builder a) as [ds|e0] eqn:Hex; cbn.
  - apply raises_within_bind.
    + destruct (truthy (pad_up_to_batches a)); [|apply raises_within_ok].
      eapply raises_within_weaken; [|apply padding_stage_raises].
      intros e He. right; left; exact He.
    + intros ds1 _. apply raises_within_bind.
      * eapply raises_within_weaken; [|apply batch_loop_raises].
        intros e He. right; right; exact He.
      * intros ds2 _. eapply raises_within_weaken; [|apply ds_prefetch_raises].
        intros e He. right; right; exact He.
  - apply raises_within_raise. left. reflexivity.
Qed.

(** With [pad_up_to_batches] false ([None] or [0]) the padding lines are
    skipped. *)
Lemma create_dataset_without_padding a :
  truthy (pad_up_to_batches a) = false ->
  create_dataset ops dataset_builder a =
    (ds ← examples_stage ops dataset_builder a;
     ds ← batching_stage (batch_dims a) ds;
     ds_prefetch (prefetch_size a) ds).
Proof. intros Hp. unfold create_dataset. rewrite Hp. reflexivity. Qed.

(** The padding lines on a dataset whose reported cardinality is the number
    of examples it yields and whose shapes are all known: [mask=True] on each
    example, then [padding] filler records. *)
Lemma padding_stage_known_cardinality dims pad (ds : Dataset (Content Features)) l z :
  zeros_features (element_spec ds) = Ok z ->
  "mask" ∉ dom (element_spec ds) ->
  content ds = Fin l ->
  cardinality ds = Z.of_nat (length l) ->
  0 <= np_sub (np_mul pad (np_prod dims)) (Z.of_nat (length l)) ->
  padding_stage dims pad ds =
    Ok {| element_spec := <["mask" := bool_spec]> (element_spec ds);
          content :=
            Fin (map mark l ++
                 replicate
                   (Z.to_nat (np_sub (np_mul pad (np_prod dims)) (Z.of_nat (length l))))
                   (filler z));
          cardinality :=
            Z.of_nat (length l)
            + np_sub (np_mul pad (np_prod dims)) (Z.of_nat (length l)) |}.
Proof.
  intros Hz Hmask Hc Hn Hpad. unfold padding_stage. rewrite Hz.
  cbn [mbind result_bind Py.bind].
  rewrite bool_decide_eq_false_2 by exact Hmask.
  cbn [ds_map cardinality]. rewrite Hn. unfold assert.
  set (padding := np_sub (np_mul pad (np_prod dims)) (Z.of_nat (length l))) in *.
  assert (Hrange : - 2 ^ 63 <= padding < 2 ^ 63) by apply wrap_signed_64_range.
  replace (padding >=? 0) with true by lia. cbn [mbind result_bind Py.bind mret result_ret].
  unfold ds_concatenate, ds_repeat. cbn [content cardinality element_spec ds_map cmap].
  rewrite Hc. cbn [cmap]. replace (padding <? 0) with false by lia.
  f_equal. f_equal.
  - f_equal. f_equal. induction (Z.to_nat padding) as [|k IH]; [reflexivity|].
    cbn [replicate concat]. rewrite IH. reflexivity.
  - rewrite !Hn. change INFINITE_CARDINALITY with (-1). change UNKNOWN_CARDINALITY with (-2).
    change ((1 =? -1) || (1 =? -2)) with false. cbv iota.
    replace (Z.of_nat (length l) =? -1) with false by lia.
    replace (Z.of_nat (length l) =? -2) with false by lia.
    rewrite (wrap_signed_64_id (padding * 1)) by lia.
    destruct (padding =? 0) eqn:H0.
    + cbn. lia.
    + replace (padding * 1 =? -1) with false by lia.
      replace (padding * 1 =? -2) with false by lia.
      cbn. lia.
Qed.

(** On a dataset whose shapes are known, a negative [padding] fails the
    assertion, when the pipeline is built. *)
Lemma padding_stage_underflow dims pad (ds : Dataset (Content Features)) z :
  zeros_features (element_spec ds) = Ok z ->
  "mask" ∉ dom (element_spec ds) ->
  np_sub (np_mul pad (np_prod dims)) (cardinality ds) < 0 ->
  padding_stage dims pad ds =
    Raise (AssertionError
             (InvalidPadding (np_sub (np_mul pad (np_prod dims)) (cardinality ds))
                dims (cardinality ds) pad)).
Proof.
  intros Hz Hmask Hneg. unfold padding_stage. rewrite Hz.
  cbn [mbind result_bind Py.bind].
  rewrite bool_decide_eq_false_2 by exact Hmask.
  cbn [ds_map cardinality]. unfold assert.
  replace (_ >=? 0) with false by lia. reflexivity.
Qed.

Lemma mask_of_mark (f : Features) : mask_of (mark f) = Some true.
Proof. unfold mask_of, mark. rewrite lookup_insert_eq. reflexivity. Qed.

Lemma mask_of_filler (z : Features) : mask_of (filler z) = Some false.
Proof. unfold mask_of, filler. rewrite lookup_insert_eq. reflexivity. Qed.

(** The filler record holds zeros for every feature of the examples. *)
Lemma filler_zeros (spec : Spec) (z : Features) (name : string) (s : TensorSpec) :
  zeros_features spec = Ok z -> name <> "mask" -> spec !! name = Some s ->
  exists t, zeros s = Ok t /\ filler z !! name = Some t.
Proof.
  intros Hz Hne Hname. unfold filler. rewrite lookup_insert_ne by congruence.
  apply (zeros_features_lookup spec z name s Hz Hname).
Qed.

End AssemblerStages.

(** The padding lines on a dataset whose count the library does not know:
    the sentinel [-2] is subtracted as if it were a count. *)
Lemma padding_stage_unknown_cardinality dims pad (ds : Dataset (Content Features)) l z :
  zeros_features (element_spec ds) = Ok z ->
  "mask" ∉ dom (element_spec ds) ->
  content ds = Fin l ->
  cardinality ds = UNKNOWN_CARDINALITY ->
  0 <= np_sub (np_mul pad (np_prod dims)) (-2) ->
  content <$> (match padding_stage dims pad ds with Ok d => Some d | Raise _ => None end) =
    Some (Fin (map mark l ++
               replicate (Z.to_nat (np_sub (np_mul pad (np_prod dims)) (-2))) (filler z))).
Proof.
  intros Hz Hmask Hc Hn Hpad. unfold padding_stage. rewrite Hz.
  cbn [mbind result_bind Py.bind].
  rewrite bool_decide_eq_false_2 by exact Hmask.
  cbn [ds_map cardinality]. rewrite Hn. unfold assert.
  change UNKNOWN_CARDINALITY with (-2).
  set (padding := np_sub (np_mul pad (np_prod dims)) (-2)) in *.
  replace (padding >=? 0) with true by lia. cbn.
  rewrite Hc. cbn [cmap]. replace (padding <? 0) with false by lia.
  do 3 f_equal. induction (Z.to_nat padding) as [|k IH]; [reflexivity|].
  cbn [replicate concat]. rewrite IH. reflexivity.
Qed.

(** The padding scenario of the documentation: ten examples in one epoch,
    batches of four, padded up to three batches. *)
Example create_dataset_pads_10_to_3_batches :
  masks (create_dataset Fixture.ops0 (Fixture.range_builder 10)
           (set_pad_up_to_batches (Some 3) Fixture.eval_args)) =
  Some [[Some true; Some true; Some true; Some true];
        [Some true; Some true; Some true; Some true];
        [Some true; Some true; Some false; Some false]].
Proof. vm_compute. reflexivity. Qed.

(** A padded capacity below the count the dataset reports fails at
    construction. *)
Example create_dataset_underflow :
  create_dataset Fixture.ops0 (Fixture.range_builder 10)
    (set_pad_up_to_batches (Some 2) Fixture.eval_args)
  = Raise (AssertionError (InvalidPadding (-2) [4] 10 2)).
Proof. vm_compute. reflexivity. Qed.

(** C5, where the code departs from it.  Ten examples, all kept by a
    [filter_fn], batches of four, [pad_up_to_batches=3]: [filter] leaves the
    cardinality unknown ([-2]), the code computes [padding = 12 - (-2) = 14]
    and appends fourteen filler records, not two; six batches come out, not
    three. *)
Theorem C5_filtered_dataset_is_padded_too_far :
  let a := set_filter_fn (Some (fun _ => true))
             (set_pad_up_to_batches (Some 3) Fixture.eval_args) in
  3 * np_prod (batch_dims a) - 10 = 2
  /\ masks (create_dataset Fixture.ops0 (Fixture.range_builder 10) a) =
     Some [[Some true; Some true; Some true; Some true];
           [Some true; Some true; Some true; Some true];
           [Some true; Some true; Some false; Some false];
           [Some false; Some false; Some false; Some false];
           [Some false; Some false; Some false; Some false];
           [Some false; Some false; Some false; Some false]].
Proof. split; vm_compute; reflexivity. Qed.

(** C6, where the code departs from it.  Ten examples, all kept by a
    [filter_fn], batches of four, [pad_up_to_batches=2]: the capacity is 8
    and [needed = 8 - 10] is negative, yet the code computes
    [padding = 8 - (-2) = 10], the assertion holds, and a dataset of five
    batches is returned. *)
Theorem C6_filtered_dataset_passes_the_padding_check :
  let a := set_filter_fn (Some (fun _ => true))
             (set_pad_up_to_batches (Some 2) Fixture.eval_args) in
  2 * np_prod (batch_dims a) - 10 < 0
  /\ (forall e, create_dataset Fixture.ops0 (Fixture.range_builder 10) a <> Raise e)
  /\ masks (create_dataset Fixture.ops0 (Fixture.range_builder 10) a) =
     Some [[Some true; Some true; Some true; Some true];
           [Some true; Some true; Some true; Some true];
           [Some true; Some true; Some false; Some false];
           [Some false; Some false; Some false; Some false];
           [Some false; Some false; Some false; Some false]].
Proof.
  split; [vm_compute; reflexivity|]. split; [|vm_compute; reflexivity].
  intros e He.
  assert (Hm : masks (create_dataset Fixture.ops0 (Fixture.range_builder 10)
                 (set_filter_fn (Some (fun _ => true))
                    (set_pad_up_to_batches (Some 2) Fixture.eval_args))) <> None)
    by (vm_compute; discriminate).
  rewrite He in Hm. apply Hm. reflexivity.
Qed.

(** C7, as the code has it.  [create_dataset] raises its [ValueError]
    "Please set 'rng' when shuffling." exactly when [shuffle] is true and [rng]
    is [None]; it does so in its first statement, whatever the builder holds,
    before anything is read.  With [shuffle=False] and [rng=None] the seed
    check passes: that error is not raised and the pipeline up to the
    preprocessing is built; what can still fail are the later steps, each for
    its own reason (the padding lines, [batch], [prefetch]), and the whole
    construction succeeds when no padding is requested, the batch sizes are
    positive and the prefetch size is at least [-1]. *)
Theorem C7_missing_seed (ops : Ops) (dataset_builder : DatasetBuilder) (a : Args) :
  (create_dataset ops dataset_builder a = Raise (ValueError SetRngWhenShuffling)
     <-> shuffle a = true /\ rng a = None)
  /\ (shuffle a = true -> rng a = None ->
      forall other_builder,
        create_dataset ops other_builder a = Raise (ValueError SetRngWhenShuffling))
  /\ (shuffle a = false -> rng a = None ->
      (exists ds, examples_stage ops dataset_builder a = Ok ds)
      /\ create_dataset ops dataset_builder a <> Raise (ValueError SetRngWhenShuffling)
      /\ (forall e, create_dataset ops dataset_builder a = Raise e ->
            padding_stage_exn e \/ batching_exn e)
      /\ (truthy (pad_up_to_batches a) = false ->
          Forall (fun b => 0 < b) (batch_dims a) ->
          -1 <= prefetch_size a ->
          exists ds, create_dataset ops dataset_builder a = Ok ds)).
Proof.
  assert (Hraise : forall b, shuffle a = true -> rng a = None ->
            create_dataset ops b a = Raise (ValueError SetRngWhenShuffling)).
  { intros b Hs Hr. unfold create_dataset.
    rewrite (examples_stage_missing_seed ops b a Hs Hr). reflexivity. }
  assert (Hinv : create_dataset ops dataset_builder a = Raise (ValueError SetRngWhenShuffling) ->
            shuffle a = true /\ rng a = None).
  { intros He.
    destruct (create_dataset_raises ops dataset_builder a _ He) as [Hex|[Hpad|Hb]].
    - exact (examples_stage_seed_check_passes ops dataset_builder a _ Hex).
    - destruct Hpad as [Hd|[Hd|(? & ? & ? & ? & Hd)]]; discriminate Hd.
    - destruct Hb as [Hd|[d Hd]]; discriminate Hd. }
  split; [split; [exact Hinv|intros [Hs Hr]; apply Hraise; assumption]|].
  split; [intros Hs Hr b; apply Hraise; assumption|].
  intros Hs Hr.
  assert (Hex : exists ds, examples_stage ops dataset_builder a = Ok ds).
  { unfold examples_stage. rewrite Hs, Hr. cbn.
    destruct (preprocess_fn a); eexists; reflexivity. }
  split; [exact Hex|]. split; [|split].
  - intros He. apply Hinv in He as [Hs' _]. congruence.
  - intros e He.
    destruct (create_dataset_raises ops dataset_builder a _ He) as [Hd|[Hpad|Hb]]; auto.
    destruct Hex as [ds Hds]. congruence.
  - intros Hp Hpos Hpre. destruct Hex as [ds Hex].
    rewrite (create_dataset_without_padding ops dataset_builder a Hp), Hex.
    cbn [mbind result_bind Py.bind].
    unfold batching_stage.
    destruct (batch_loop_succeeds (rev (batch_dims a))
                {| element_spec := element_spec ds; content := cmap Ex (content ds);
                   cardinality := cardinality ds |}) as [ds' Hds'].
    + apply Forall_rev. exact Hpos.
    + rewrite Hds'. unfold ds_prefetch. replace (prefetch_size a <? -1) with false by lia.
      eexists. reflexivity.
Qed.

(** C7 as stated fails: with [shuffle=False] and [rng=None] construction does
    not always succeed.  Ten examples in batches of four do not fit in two
    batches, and the padding assertion fails. *)
Lemma C7_counterexample :
  shuffle (set_pad_up_to_batches (Some 2) Fixture.eval_args) = false
  /\ rng (set_pad_up_to_batches (Some 2) Fixture.eval_args) = None
  /\ create_dataset Fixture.ops0 (Fixture.range_builder 10)
       (set_pad_up_to_batches (Some 2) Fixture.eval_args)
     = Raise (AssertionError (InvalidPadding (-2) [4] 10 2)).
Proof. split; [reflexivity|]. split; [reflexivity|]. vm_compute. reflexivity. Qed.

(** C10. With [pad_up_to_batches=0] the padding lines are skipped, as with
    [None]: the pipeline is the one without padding (no record is appended,
    no ["mask"] feature is added) and no padding assertion can fail. *)
Theorem C10_zero_pad_is_disabled (ops : Ops) (dataset_builder : DatasetBuilder) (a : Args) :
  pad_up_to_batches a = Some 0 ->
  create_dataset ops dataset_builder a
    = create_dataset ops dataset_builder (set_pad_up_to_batches None a)
  /\ create_dataset ops dataset_builder a
    = (ds ← examples_stage ops dataset_builder a;
       ds ← batching_stage (batch_dims a) ds;
       ds_prefetch (prefetch_size a) ds)
  /\ (forall msg, create_dataset ops dataset_builder a <> Raise (AssertionError msg)).
Proof.
  intros Hp.
  assert (Hskip : create_dataset ops dataset_builder a
    = (ds ← examples_stage ops dataset_builder a;
       ds ← batching_stage (batch_dims a) ds;
       ds_prefetch (prefetch_size a) ds)).
  { apply create_dataset_without_padding. rewrite Hp. reflexivity. }
  split; [|split; [exact Hskip|]].
  - rewrite Hskip. unfold create_dataset. reflexivity.
  - intros msg He. rewrite Hskip in He.
    destruct (examples_stage ops dataset_builder a) as [ds|e] eqn:Hex;
      cbn [mbind result_bind Py.bind] in He.
    + destruct (batching_stage (batch_dims a) ds) as [ds'|e] eqn:Hb;
        cbn [mbind result_bind Py.bind] in He.
      * destruct (ds_prefetch_raises (prefetch_size a) ds' _ He) as [Hd|[d Hd]];
          discriminate Hd.
      * inversion He; subst e.
        destruct (batch_loop_raises _ _ _ Hb) as [Hd|[d Hd]]; discriminate Hd.
    + inversion He; subst e.
      destruct (examples_stage_raises ops dataset_builder a _ Hex) as [Hd|[Hd|[Hd|Hd]]];
        discriminate Hd.
Qed.

Lemma C10_witness :
  pad_up_to_batches (set_pad_up_to_batches (Some 0) Fixture.eval_args) = Some 0
  /\ create_dataset Fixture.ops0 (Fixture.range_builder 10)
       (set_pad_up_to_batches (Some 0) Fixture.eval_args)
     = create_dataset Fixture.ops0 (Fixture.range_builder 10)
         (set_pad_up_to_batches None (set_pad_up_to_batches (Some 0) Fixture.eval_args)).
Proof.
  split; [reflexivity|].
  apply (C10_zero_pad_is_disabled Fixture.ops0 (Fixture.range_builder 10)
           (set_pad_up_to_batches (Some 0) Fixture.eval_args)).
  reflexivity.
Defined.

(** Ten examples with [pad_up_to_batches=0]: two full batches, no mask, no
    error, although no batch was asked for. *)
Example create_dataset_zero_pad :
  masks (create_dataset Fixture.ops0 (Fixture.range_builder 10)
           (set_pad_up_to_batches (Some 0) Fixture.eval_args)) =
  Some [[None; None; None; None]; [None; None; None; None]].
Proof. vm_compute. reflexivity. Qed.

(** * The per-example seed *)

Lemma take_z_lookup {A} (l : list A) (n : Z) (i : nat) :
  Z.of_nat i < n -> take_z n l !! i = l !! i.
Proof.
  revert n i. induction l as [|x r IH]; intros n i Hi; [reflexivity|].
  cbn [take_z]. replace (n <=? 0) with false by lia.
  destruct i as [|i]; [reflexivity|].
  cbn [lookup list_lookup]. apply IH. lia.
Qed.

Lemma wrap_signed_32_eq (i j : Z) :
  wrap_signed 32 i = wrap_signed 32 j <-> (i - j) mod 2 ^ 32 = 0.
Proof.
  unfold wrap_signed. change (2 ^ (32 - 1)) with 2147483648.
  change (2 ^ 32) with 4294967296.
  split; intros Heq; Z.div_mod_to_equations; lia.
Qed.

Lemma wrap_signed_32_small (i : Z) :
  - 2 ^ 31 <= i < 2 ^ 31 -> wrap_signed 32 i = i.
Proof.
  unfold wrap_signed. change (2 ^ (32 - 1)) with 2147483648.
  change (2 ^ 32) with 4294967296. change (2 ^ 31) with 2147483648.
  intros Hi. Z.div_mod_to_equations. lia.
Qed.

(** Examples [2^32] positions apart are handed the same ["rng"]. *)
Lemma with_rng_period (ops : Ops) (rng : Key) (i : Z) (features : Features) :
  with_rng ops rng (i + 2 ^ 32) features = with_rng ops rng i features.
Proof.
  unfold with_rng, folded_index, cast_int32.
  replace (wrap_signed 32 (i + 2 ^ 32)) with (wrap_signed 32 i); [reflexivity|].
  apply wrap_signed_32_eq. replace (i - (i + 2 ^ 32)) with (-1 * 2 ^ 32) by lia.
  apply Z_mod_mult.
Qed.

(** Deleting "rng" when it is there is deleting it. *)
Lemma fn_deletes_rng (ops : Ops) (f : PreprocessFn) (rng : Key) (i : Z) (x : Features) :
  _fn ops f rng i x = delete "rng" (pp_call f (with_rng ops rng i x)).
Proof.
  unfold _fn. case_bool_decide as Hin; [reflexivity|].
  symmetry. apply delete_id. apply not_elem_of_dom. exact Hin.
Qed.

(** The element [ds.enumerate().map(f)] yields at position [i]. *)
Lemma ds_enumerate_map_at {A B} (f : Z -> A -> B) spec (ds : Dataset (Content A)) i x :
  at_position (content ds) i = Some x ->
  Z.of_nat i < int64_max ->
  at_position (content (ds_enumerate_map f spec ds)) i = Some (f (Z.of_nat i) x).
Proof.
  intros Hx Hi. unfold ds_enumerate_map. cbn [content].
  destruct (content ds) as [l|g]; cbn [at_position] in *.
  - rewrite list_lookup_imap, take_z_lookup by exact Hi. rewrite Hx. reflexivity.
  - inversion Hx; subst x. rewrite list_lookup_fmap.
    rewrite lookup_seq_lt by (apply Nat2Z.inj_lt; rewrite Z2Nat.id; [exact Hi|discriminate]).
    reflexivity.
Qed.

(** C9, as the code has it.  The seed is cast to 64-bit integers; the
    enumeration index is cast to a 32-bit integer before it is folded in.  At
    every position [i] the example handed to [preprocess_fn] carries, as
    ["rng"], the stateless fold of the 64-bit seed with the 32-bit index, and
    the feature is removed from the result.  Two indices are folded as the
    same value exactly when they differ by a multiple of [2^32]; indices
    below [2^31] are folded unchanged. *)
Theorem C9_per_example_rng (ops : Ops) (ds : Dataset (Content Features))
    (preprocess_fn : PreprocessFn) (rng : Key) (i : nat) (x : Features) :
  at_position (content ds) i = Some x ->
  Z.of_nat i < int64_max ->
  at_position (content (_preprocess_with_per_example_rng ops ds preprocess_fn rng)) i
    = Some (delete "rng" (pp_call preprocess_fn (with_rng ops rng (Z.of_nat i) x)))
  /\ with_rng ops rng (Z.of_nat i) x !! "rng"
    = Some (stateless_fold_in ops (cast_int64 (key_tensor rng)) (cast_int32 (Z.of_nat i)))
  /\ t_dtype (cast_int64 (key_tensor rng)) = DT_int64
  /\ (forall j j', folded_index j = folded_index j' <-> (j - j') mod 2 ^ 32 = 0)
  /\ (forall j, 0 <= j < 2 ^ 31 -> folded_index j = j).
Proof.
  intros Hx Hi. split; [|split; [|split; [|split]]].
  - unfold _preprocess_with_per_example_rng.
    rewrite (ds_enumerate_map_at _ _ ds i x Hx Hi), fn_deletes_rng. reflexivity.
  - unfold with_rng, folded_index. apply lookup_insert_eq.
  - reflexivity.
  - intros j j'. apply wrap_signed_32_eq.
  - intros j Hj. apply wrap_signed_32_small. lia.
Qed.

Lemma C9_witness :
  at_position (Fin [Fixture.example 0; Fixture.example 1]) 1 = Some (Fixture.example 1)
  /\ Z.of_nat 1 < int64_max
  /\ with_rng Fixture.ops0 (7, 9) (Z.of_nat 1) (Fixture.example 1) !! "rng"
     = Some (stateless_fold_in Fixture.ops0 (cast_int64 (key_tensor (7, 9)))
               (cast_int32 (Z.of_nat 1))).
Proof.
  split; [reflexivity|]. split; [reflexivity|].
  apply (C9_per_example_rng Fixture.ops0
           {| element_spec := Fixture.id_spec;
              content := Fin [Fixture.example 0; Fixture.example 1];
              cardinality := 2 |}
           Fixture.identity_fn (7, 9) 1 (Fixture.example 1));
    reflexivity.
Defined.

(** C9 as stated fails: the enumeration indices [0] and [2^32] are distinct
    64-bit integers, both reachable, and are folded as the same value, so the
    two examples get the same ["rng"]. *)
Lemma C9_counterexample :
  0 <> 2 ^ 32
  /\ 0 <= 0 < int64_max /\ 0 <= 2 ^ 32 < int64_max
  /\ folded_index 0 = folded_index (2 ^ 32)
  /\ with_rng Fixture.ops0 (7, 9) 0 (Fixture.example 0)
     = with_rng Fixture.ops0 (7, 9) (2 ^ 32) (Fixture.example 0).
Proof. repeat split; try discriminate; reflexivity. Qed.

(** * Further properties of the shard planner *)

(** X1. On a valid topology and for [num_examples >= 0], with either value of
    [drop_remainder], the range returned lies inside the split:
    [0 <= from <= to <= num_examples]. *)
Theorem plan_range_within_split (rt : JaxRuntime) (split : string) (n H h : Z)
    (drop : bool) :
  0 <= n -> 1 <= H -> 0 <= h < H ->
  exists ri, snd (plan rt split n H h drop) = Ok ri
             /\ 0 <= ri_from ri <= ri_to ri /\ ri_to ri <= n.
Proof.
  intros Hn HH Hh. rewrite (plan_value rt split n H h drop HH Hh). cbn [snd].
  eexists. split; [reflexivity|]. cbn [ri_from ri_to].
  pose proof (num_unused_examples_bounds n H HH) as Hr.
  assert (Hp : 0 <= n / H) by (apply Z.div_pos; lia).
  assert (Hn' : n = n / H * H + num_unused_examples n H)
    by (unfold num_unused_examples; lia).
  destruct drop; nia.
Qed.

Lemma plan_range_within_split_witness :
  exists ri, snd (plan Fixture.rt0 "train" 10 3 2 true) = Ok ri
             /\ 0 <= ri_from ri <= ri_to ri /\ ri_to ri <= 10.
Proof. apply (plan_range_within_split Fixture.rt0 "train" 10 3 2 true); lia. Defined.

(** X2. The ranges follow one another in the order of the host ids: host 0
    starts at index 0, each host starts where the host before it ends, and
    the last host ends at [num_examples], or at
    [host_count * (num_examples // host_count)] when the remainder is
    dropped. *)
Theorem plan_ranges_contiguous (rt : JaxRuntime) (split : string) (n H : Z)
    (drop : bool) :
  1 <= H ->
  (exists ri, snd (plan rt split n H 0 drop) = Ok ri /\ ri_from ri = 0)
  /\ (forall h, 0 <= h -> h + 1 < H ->
        exists ri ri', snd (plan rt split n H h drop) = Ok ri
                       /\ snd (plan rt split n H (h + 1) drop) = Ok ri'
                       /\ ri_to ri = ri_from ri')
  /\ (exists ri, snd (plan rt split n H (H - 1) drop) = Ok ri
                 /\ ri_to ri = if drop then H * (n / H) else n).
Proof.
  intros HH. pose proof (num_unused_examples_bounds n H HH) as Hr.
  split; [|split].
  - rewrite (plan_value rt split n H 0 drop) by lia. cbn [snd].
    eexists. split; [reflexivity|]. cbn [ri_from]. destruct drop; lia.
  - intros h Hh0 Hh1.
    rewrite (plan_value rt split n H h drop) by lia.
    rewrite (plan_value rt split n H (h + 1) drop) by lia. cbn [snd].
    do 2 eexists. split; [reflexivity|]. split; [reflexivity|]. reflexivity.
  - rewrite (plan_value rt split n H (H - 1) drop) by lia. cbn [snd].
    eexists. split; [reflexivity|]. cbn [ri_to].
    replace (H - 1 + 1) with H by lia.
    destruct drop; [lia|]. unfold num_unused_examples in *. lia.
Qed.

Lemma plan_ranges_contiguous_witness :
  1 <= 3
  /\ exists ri, snd (plan Fixture.rt0 "train" 10 3 (3 - 1) false) = Ok ri
                /\ ri_to ri = 10.
Proof.
  split; [lia|].
  apply (plan_ranges_contiguous Fixture.rt0 "train" 10 3 false). lia.
Defined.

(** X3. Without [drop_remainder], the first [r] hosts, where [r] is the
    remainder, get exactly one example more than [num_examples // host_count];
    the other hosts get exactly that many. *)
Theorem plan_first_hosts_get_extra (rt : JaxRuntime) (split : string) (n H h : Z) :
  1 <= H -> 0 <= h < H ->
  exists ri, snd (plan rt split n H h false) = Ok ri
             /\ ri_to ri - ri_from ri
                = n / H + (if h <? num_unused_examples n H then 1 else 0).
Proof.
  intros HH Hh. rewrite (plan_value rt split n H h false HH Hh). cbn [snd].
  eexists. split; [reflexivity|]. cbn [ri_from ri_to].
  destruct (h <? num_unused_examples n H) eqn:Hlt; lia.
Qed.

Lemma plan_first_hosts_get_extra_witness :
  exists ri, snd (plan Fixture.rt0 "train" 10 3 0 false) = Ok ri
             /\ ri_to ri - ri_from ri
                = 10 / 3 + (if 0 <? num_unused_examples 10 3 then 1 else 0).
Proof. apply (plan_first_hosts_get_extra Fixture.rt0 "train" 10 3 0); lia. Defined.

(** X4. When [host_count] divides [num_examples], [drop_remainder] makes no
    difference: the same range, and no warning. *)
Theorem plan_divisible_ignores_drop_remainder (rt : JaxRuntime) (split : string)
    (n H h : Z) :
  1 <= H -> 0 <= h < H -> n mod H = 0 ->
  plan rt split n H h true = plan rt split n H h false
  /\ fst (plan rt split n H h true) = [].
Proof.
  intros HH Hh Hdiv.
  assert (Hr : num_unused_examples n H = 0).
  { unfold num_unused_examples. rewrite Z.mod_eq in Hdiv by lia. lia. }
  rewrite !(plan_value rt split n H h _ HH Hh). rewrite Hr. cbn [andb fst].
  change (0 <? 0) with false. cbn [andb].
  split; [|reflexivity]. do 3 f_equal; lia.
Qed.

Lemma plan_divisible_ignores_drop_remainder_witness :
  plan Fixture.rt0 "train" 12 3 1 true = plan Fixture.rt0 "train" 12 3 1 false
  /\ fst (plan Fixture.rt0 "train" 12 3 1 true) = [].
Proof.
  apply (plan_divisible_ignores_drop_remainder Fixture.rt0 "train" 12 3 1);
    [lia|lia|reflexivity].
Defined.

(** X5. The planner logs its warning, with the number of dropped examples,
    the number of examples and the host count, exactly when the topology is
    valid, [drop_remainder] is set and the remainder is positive; in every
    other case it logs nothing. *)
Theorem plan_warning_iff (rt : JaxRuntime) (split : string) (n H h : Z) (drop : bool) :
  let valid := 0 <= h < H /\ 1 <= H in
  let r := num_unused_examples n H in
  (valid /\ drop = true /\ 0 < r ->
     fst (plan rt split n H h drop) = [Warning dropping_fmt [r; n; H]])
  /\ (~ (valid /\ drop = true /\ 0 < r) -> fst (plan rt split n H h drop) = []).
Proof.
  intros valid r. split.
  - intros ((Hh & HH) & Hd & Hr). rewrite (plan_value rt split n H h drop HH Hh).
    cbn [fst]. fold r. rewrite Hd. replace (0 <? r) with true by lia. reflexivity.
  - intros Hno.
    destruct (Z_lt_ge_dec h 0) as [H0|H0];
      [|destruct (Z_lt_ge_dec h H) as [H1|H1]].
    + unfold plan, get_read_instruction_for_host.
      replace ((h <? 0) || (h >=? H) || (H <? 1)) with true by lia. reflexivity.
    + rewrite (plan_value rt split n H h drop) by lia. cbn [fst]. fold r.
      destruct drop; [|reflexivity].
      destruct (0 <? r) eqn:Hr; [|reflexivity].
      exfalso. apply Hno. unfold valid. repeat split; lia.
    + unfold plan, get_read_instruction_for_host.
      replace ((h <? 0) || (h >=? H) || (H <? 1)) with true by lia. reflexivity.
Qed.

(** X6. A single host reads the whole split, whatever [drop_remainder] is,
    and nothing is logged. *)
Theorem plan_single_host (rt : JaxRuntime) (split : string) (n : Z) (drop : bool) :
  plan rt split n 1 0 drop
  = ([], Ok {| ri_split := split; ri_from := 0; ri_to := n; ri_unit := "abs" |}).
Proof.
  rewrite (plan_value rt split n 1 0 drop) by lia.
  assert (Hr : num_unused_examples n 1 = 0).
  { unfold num_unused_examples. rewrite Z.div_1_r. lia. }
  rewrite Hr, Z.div_1_r. change (0 <? 0) with false. rewrite andb_false_r.
  do 3 f_equal; destruct drop; lia.
Qed.

(** * Further properties of the per-example seed *)

Lemma take_z_lookup_Some {A} (l : list A) (n : Z) (i : nat) (x : A) :
  take_z n l !! i = Some x -> l !! i = Some x /\ Z.of_nat i < n.
Proof.
  revert n i. induction l as [|y r IH]; intros n i Hx; [discriminate Hx|].
  cbn [take_z] in Hx. destruct (n <=? 0) eqn:Hn; [discriminate Hx|].
  destruct i as [|i].
  - split; [exact Hx|lia].
  - cbn [lookup list_lookup] in *. apply IH in Hx as [Hx Hi]. split; [exact Hx|lia].
Qed.

(** What [ds.enumerate().map(f)] yields at position [i] comes from the
    element of [ds] at that position. *)
Lemma ds_enumerate_map_inv {A B} (f : Z -> A -> B) spec (ds : Dataset (Content A)) i y :
  at_position (content (ds_enumerate_map f spec ds)) i = Some y ->
  Z.of_nat i < int64_max
  /\ exists x, at_position (content ds) i = Some x /\ y = f (Z.of_nat i) x.
Proof.
  unfold ds_enumerate_map. cbn [content].
  destruct (content ds) as [l|g]; cbn [at_position]; intros Hy.
  - rewrite list_lookup_imap in Hy.
    destruct (take_z int64_max l !! i) as [x|] eqn:Hx; [|discriminate Hy].
    apply take_z_lookup_Some in Hx as [Hx Hi]. inversion Hy; subst y.
    split; [exact Hi|]. exists x. split; [exact Hx|reflexivity].
  - rewrite list_lookup_fmap in Hy.
    destruct (seq 0 (Z.to_nat int64_max) !! i) as [j|] eqn:Hj; [|discriminate Hy].
    apply lookup_seq in Hj as [-> Hi]. inversion Hy; subst y.
    split; [|exists (g i); split; reflexivity].
    apply Nat2Z.inj_lt in Hi. rewrite Z2Nat.id in Hi; [exact Hi|discriminate].
Qed.

(** X8. [_preprocess_with_per_example_rng] keeps the examples in their
    places: position [i] of the result holds an example exactly when [i] is
    below the largest 64-bit integer and the input holds one there, and it is
    [_fn] applied to [i] and that example; every other feature is the one
    [preprocess_fn] returned. *)
Theorem per_example_rng_keeps_positions (ops : Ops) (ds : Dataset (Content Features))
    (preprocess_fn : PreprocessFn) (rng : Key) (i : nat) (y : Features) :
  at_position (content (_preprocess_with_per_example_rng ops ds preprocess_fn rng)) i
    = Some y
  <-> Z.of_nat i < int64_max
      /\ exists x, at_position (content ds) i = Some x
                   /\ y = _fn ops preprocess_fn rng (Z.of_nat i) x
                   /\ forall name, name <> "rng" ->
                        y !! name
                        = pp_call preprocess_fn (with_rng ops rng (Z.of_nat i) x) !! name.
Proof.
  unfold _preprocess_with_per_example_rng. split.
  - intros Hy. apply ds_enumerate_map_inv in Hy as (Hi & x & Hx & ->).
    split; [exact Hi|]. exists x. split; [exact Hx|]. split; [reflexivity|].
    intros name Hne. rewrite fn_deletes_rng. apply lookup_delete_ne. congruence.
  - intros (Hi & x & Hx & -> & _). apply ds_enumerate_map_at; assumption.
Qed.

(** * Further properties of the examples stage *)

(** The examples stage, once the key list is known. *)
Lemma examples_stage_with_keys (ops : Ops) (dataset_builder : DatasetBuilder)
    (a : Args) (r k0 k1 k2 : Key) (f : PreprocessFn) :
  rng a = Some r ->
  jax_random_split ops r 3 = [k0; k1; k2] ->
  preprocess_fn a = Some f ->
  examples_stage ops dataset_builder a =
    if shuffle a
    then shuffled ← ds_shuffle ops (shuffle_buffer_size a) (Some (fst k1))
                      (source_stage dataset_builder a (Some (fst k2)));
         Ok (_preprocess_with_per_example_rng ops shuffled f k0)
    else Ok (_preprocess_with_per_example_rng ops
               (source_stage dataset_builder a (Some (fst k2))) f k1).
Proof.
  intros Hr Hsplit Hf. unfold examples_stage, source_stage.
  rewrite Hr, Hsplit, Hf.
  destruct (shuffle a); [|reflexivity].
  cbn -[ds_shuffle ds_repeat _preprocess_with_per_example_rng].
  destruct (ds_shuffle _ _ _ _); reflexivity.
Qed.

(** X9. How the three keys split off [rng] are used.  The first word of the
    last key seeds the reading; when shuffling, the first word of the middle
    key seeds the shuffle and the first key seeds the preprocessing; without
    shuffling the middle key seeds the preprocessing and the first key is not
    used. *)
Theorem examples_stage_key_usage (ops : Ops) (dataset_builder : DatasetBuilder)
    (a : Args) (r k0 k1 k2 : Key) (f : PreprocessFn) :
  rng a = Some r ->
  jax_random_split ops r 3 = [k0; k1; k2] ->
  preprocess_fn a = Some f ->
  let source := source_stage dataset_builder a (Some (fst k2)) in
  examples_stage ops dataset_builder a =
    if shuffle a
    then shuffled ← ds_shuffle ops (shuffle_buffer_size a) (Some (fst k1)) source;
         Ok (_preprocess_with_per_example_rng ops shuffled f k0)
    else Ok (_preprocess_with_per_example_rng ops source f k1).
Proof.
  intros Hr Hsplit Hf source. subst source.
  apply (examples_stage_with_keys ops dataset_builder a r k0 k1 k2 f); assumption.
Qed.

Lemma examples_stage_key_usage_witness :
  examples_stage Fixture.ops0 (Fixture.range_builder 3)
    (Build_Args (SplitName "train") [] (Some (7, 9)) None (Some Fixture.identity_fn)
       None false (Some 1) false 10000 4 None)
  = Ok (_preprocess_with_per_example_rng Fixture.ops0
          (source_stage (Fixture.range_builder 3)
             (Build_Args (SplitName "train") [] (Some (7, 9)) None
                (Some Fixture.identity_fn) None false (Some 1) false 10000 4 None)
             (Some 7))
          Fixture.identity_fn (7, 1)).
Proof.
  apply (examples_stage_key_usage Fixture.ops0 (Fixture.range_builder 3)
           (Build_Args (SplitName "train") [] (Some (7, 9)) None
              (Some Fixture.identity_fn) None false (Some 1) false 10000 4 None)
           (7, 9) (7, 0) (7, 1) (7, 2) Fixture.identity_fn);
    reflexivity.
Defined.



Lemma lookup_concat_replicate {A} (e : nat) (l : list A) (i : nat) :
  (i < e * length l)%nat ->
  concat (replicate e l) !! i = l !! (i mod length l)%nat.
Proof.
  revert i. induction e as [|e IH]; intros i Hi; [lia|].
  cbn [replicate concat].
  destruct (Nat.lt_ge_cases i (length l)) as [Hlt|Hge].
  - rewrite lookup_app_l by exact Hlt. rewrite Nat.mod_small by exact Hlt. reflexivity.
  - rewrite lookup_app_r by exact Hge. rewrite IH by lia.
    replace i with ((i - length l) + 1 * length l)%nat at 2 by lia.
    rewrite Nat.Div0.mod_add. reflexivity.
Qed.

(** X11. Without shuffling, the index folded into the per-example seed
    counts the examples that pass [filter_fn], on through the epochs: position
    [i] of the result is [_fn] applied to [i] and to the kept example number
    [i mod m] of the split, [m] being the number of kept examples, so the same
    example gets another index in every epoch. *)
Theorem per_example_index_counts_epochs (ops : Ops) (dataset_builder : DatasetBuilder)
    (a : Args) (r k0 k1 k2 : Key) (f : PreprocessFn) (e : Z) (i : nat) :
  rng a = Some r ->
  jax_random_split ops r 3 = [k0; k1; k2] ->
  preprocess_fn a = Some f ->
  shuffle a = false ->
  num_epochs a = Some e ->
  let read := content (as_dataset dataset_builder (split a) false
                         {| shuffle_seed := Some (fst k2); options := pipeline_options |}
                         (decoders a)) in
  let kept := match filter_fn a with Some p => List.filter p read | None => read end in
  (i < Z.to_nat e * length kept)%nat ->
  Z.of_nat i < int64_max ->
  exists ds x,
    examples_stage ops dataset_builder a = Ok ds
    /\ kept !! (i mod length kept)%nat = Some x
    /\ at_position (content ds) i = Some (_fn ops f k1 (Z.of_nat i) x).
Proof.
  intros Hr Hsplit Hf Hs He read kept Hi Hmax.
  assert (Hlen : (0 < length kept)%nat) by (destruct (length kept); lia).
  assert (Hx : exists x, kept !! (i mod length kept)%nat = Some x).
  { apply lookup_lt_is_Some_2. apply Nat.mod_upper_bound. lia. }
  destruct Hx as [x Hx].
  rewrite (examples_stage_with_keys ops dataset_builder a r k0 k1 k2 f Hr Hsplit Hf).
  rewrite Hs. do 2 eexists. split; [reflexivity|]. split; [exact Hx|].
  unfold _preprocess_with_per_example_rng. apply ds_enumerate_map_at; [|exact Hmax].
  unfold source_stage. rewrite Hs, He.
  assert (Hc : content
                 (if cache a
                  then ds_cache
                         match filter_fn a with
                         | Some p => ds_filter p (as_dataset dataset_builder (split a) false
                              {| shuffle_seed := Some (fst k2); options := pipeline_options |}
                              (decoders a))
                         | None => as_dataset dataset_builder (split a) false
                              {| shuffle_seed := Some (fst k2); options := pipeline_options |}
                              (decoders a)
                         end
                  else
                         match filter_fn a with
                         | Some p => ds_filter p (as_dataset dataset_builder (split a) false
                              {| shuffle_seed := Some (fst k2); options := pipeline_options |}
                              (decoders a))
                         | None => as_dataset dataset_builder (split a) false
                              {| shuffle_seed := Some (fst k2); options := pipeline_options |}
                              (decoders a)
                         end) = kept).
  { unfold kept, read. destruct (cache a), (filter_fn a); reflexivity. }
  unfold ds_repeat. cbn [content]. rewrite Hc.
  replace (e <? 0) with false by lia.
  cbn [at_position]. rewrite lookup_concat_replicate by exact Hi. exact Hx.
Qed.

Lemma per_example_index_counts_epochs_witness :
  exists ds x,
    examples_stage Fixture.ops0 (Fixture.range_builder 3)
      (Build_Args (SplitName "train") [] (Some (7, 9)) None (Some Fixture.identity_fn)
         None false (Some 2) false 10000 4 None) = Ok ds
    /\ content (as_dataset (Fixture.range_builder 3) (SplitName "train") false
                  {| shuffle_seed := Some 7; options := pipeline_options |} None)
         !! (4 mod 3)%nat = Some x
    /\ at_position (content ds) 4
       = Some (_fn Fixture.ops0 Fixture.identity_fn (7, 1) (Z.of_nat 4) x).
Proof.
  apply (per_example_index_counts_epochs Fixture.ops0 (Fixture.range_builder 3)
           (Build_Args (SplitName "train") [] (Some (7, 9)) None
              (Some Fixture.identity_fn) None false (Some 2) false 10000 4 None)
           (7, 9) (7, 0) (7, 1) (7, 2) Fixture.identity_fn 2 4);
    try reflexivity.
  cbn. lia.
Defined.

(** * Further properties of padding and batching *)

Lemma product_app (a b : list Z) : product (a ++ b) = product a * product b.
Proof.
  induction a as [|x a IH]; cbn [app].
  - change (product []) with 1. lia.
  - change (product (x :: a ++ b)) with (x * product (a ++ b)).
    change (product (x :: a)) with (x * product a). rewrite IH. lia.
Qed.

Lemma product_rev (dims : list Z) : product (rev dims) = product dims.
Proof.
  induction dims as [|x dims IH]; [reflexivity|].
  cbn [rev]. rewrite product_app, IH.
  change (product [x]) with (x * 1). change (product (x :: dims)) with (x * product dims).
  lia.
Qed.

Lemma chunks_length {A} (fuel b : nat) (l : list A) :
  (0 < b)%nat -> (length l <= fuel)%nat ->
  length (chunks fuel b l) = (length l / b)%nat.
Proof.
  intros Hb. revert l. induction fuel as [|fuel IH]; intros l Hl.
  - destruct l; [|cbn in Hl; lia]. cbn. symmetry. apply Nat.div_small. exact Hb.
  - cbn [chunks]. destruct (Nat.leb_spec b (length l)) as [Hle|Hlt].
    + cbn [length]. rewrite IH by (rewrite length_drop; lia). rewrite length_drop.
      replace (length l) with ((length l - b) + 1 * b)%nat at 2 by lia.
      rewrite Nat.div_add by lia. lia.
    + symmetry. apply Nat.div_small. exact Hlt.
Qed.

Lemma chunks_elements {A} (fuel b : nat) (l : list A) (c : list A) :
  In c (chunks fuel b l) -> length c = b /\ forall x, In x c -> In x l.
Proof.
  revert l. induction fuel as [|fuel IH]; intros l Hc; [destruct Hc|].
  cbn [chunks] in Hc. destruct (Nat.leb_spec b (length l)) as [Hle|Hlt]; [|destruct Hc].
  destruct Hc as [<-|Hc].
  - split; [rewrite length_take; lia|].
    intros x Hx. apply list_elem_of_In in Hx. apply list_elem_of_In.
    exact (subseteq_take b l x Hx).
  - apply IH in Hc as [Hlen Hin]. split; [exact Hlen|].
    intros x Hx. apply Hin in Hx. apply list_elem_of_In in Hx. apply list_elem_of_In.
    exact (subseteq_drop b l x Hx).
Qed.

Lemma chunks_concat {A} (fuel b : nat) (l : list A) :
  (0 < b)%nat -> (length l <= fuel)%nat ->
  concat (chunks fuel b l) = take (b * (length l / b)) l.
Proof.
  intros Hb. revert l. induction fuel as [|fuel IH]; intros l Hl.
  - destruct l; [|cbn in Hl; lia]. cbn. rewrite take_nil. reflexivity.
  - cbn [chunks]. destruct (Nat.leb_spec b (length l)) as [Hle|Hlt].
    + cbn [concat]. rewrite IH by (rewrite length_drop; lia). rewrite length_drop.
      replace (length l / b)%nat with (S ((length l - b) / b)).
      2:{ replace (length l) with ((length l - b) + 1 * b)%nat at 2 by lia.
          rewrite Nat.div_add by lia. lia. }
      replace (b * S ((length l - b) / b))%nat with (b + b * ((length l - b) / b))%nat
        by lia.
      apply take_take_drop.
    + rewrite Nat.div_small by exact Hlt. rewrite Nat.mul_0_r. reflexivity.
Qed.

(** Batching a finite dataset that holds [m] times the product of the batch
    sizes leaves [m] elements. *)
Lemma batch_loop_count (sizes : list Z) :
  forall (ds : Dataset (Content (Elem Features))) l m,
    Forall (fun b => 0 < b) sizes ->
    content ds = Fin l ->
    cardinality ds = Z.of_nat (length l) ->
    Z.of_nat (length l) = m * product sizes ->
    exists out l', batch_loop sizes ds = Ok out /\ content out = Fin l'
                   /\ Z.of_nat (length l') = m /\ cardinality out = m.
Proof.
  induction sizes as [|b sizes IH]; intros ds l m Hpos Hc Hn Hm.
  - change (product []) with 1 in Hm. exists ds, l. cbn [batch_loop].
    split; [reflexivity|]. split; [exact Hc|]. lia.
  - inversion Hpos as [|? ? Hb Hpos']; subst.
    change (product (b :: sizes)) with (b * product sizes) in Hm.
    cbn [batch_loop]. unfold ds_batch. replace (b <? 0) with false by lia.
    replace (b =? 0) with false by lia.
    cbn [mbind result_bind Py.bind]. rewrite Hc, Hn.
    change INFINITE_CARDINALITY with (-1). change UNKNOWN_CARDINALITY with (-2).
    replace (Z.of_nat (length l) =? -1) with false by lia.
    replace (Z.of_nat (length l) =? -2) with false by lia. cbn [orb].
    assert (Hdiv : Z.of_nat (length l) / b = m * product sizes).
    { rewrite Hm. replace (m * (b * product sizes)) with (m * product sizes * b) by lia.
      apply Z.div_mul. lia. }
    apply IH with (l := map Batch (chunks (length l) (Z.to_nat b) l)).
    + exact Hpos'.
    + reflexivity.
    + cbn [cardinality]. rewrite length_map, chunks_length by lia.
      rewrite Nat2Z.inj_div, Z2Nat.id by lia. reflexivity.
    + rewrite length_map, chunks_length by lia.
      rewrite Nat2Z.inj_div, Z2Nat.id by lia. exact Hdiv.
Qed.

Lemma ds_batch_shape {F} (b : Z) (ds out : Dataset (Content (Elem F))) (S : list nat) :
  ds_batch b ds = Ok out ->
  every_element (has_shape S) (content ds) ->
  every_element (has_shape (Z.to_nat b :: S)) (content out).
Proof.
  unfold ds_batch. destruct (b <? 0); [discriminate|].
  destruct (b =? 0); [discriminate|].
  intros Hout Hds. inversion Hout; subst out; clear Hout. cbn [content].
  intros i e He. cbn [has_shape].
  destruct (content ds) as [l|f] eqn:Hc; cbn [at_position] in He.
  - rewrite list_lookup_fmap in He.
    destruct (chunks (length l) (Z.to_nat b) l !! i) as [c|] eqn:Hci; [|discriminate He].
    inversion He; subst e. exists c. split; [reflexivity|].
    assert (Hin : In c (chunks (length l) (Z.to_nat b) l)).
    { apply list_elem_of_In. eapply list_elem_of_lookup_2. exact Hci. }
    apply chunks_elements in Hin as [Hlen Hsub]. split; [exact Hlen|].
    intros x Hx. apply Hsub in Hx. apply list_elem_of_In in Hx.
    apply list_elem_of_lookup in Hx as [j Hj]. apply (Hds j x). exact Hj.
  - inversion He; subst e. eexists. split; [reflexivity|].
    split; [rewrite length_map, length_seq; reflexivity|].
    intros x Hx. apply in_map_iff in Hx as (j & <- & _). apply (Hds j (f j)). reflexivity.
Qed.

Lemma batch_loop_shape (sizes : list Z) :
  forall (ds out : Dataset (Content (Elem Features))) (S : list nat),
    batch_loop sizes ds = Ok out ->
    every_element (has_shape S) (content ds) ->
    every_element (has_shape (rev (map Z.to_nat sizes) ++ S)) (content out).
Proof.
  induction sizes as [|b sizes IH]; intros ds out S Hout Hds.
  - cbn in Hout. inversion Hout; subst out. exact Hds.
  - cbn [batch_loop] in Hout.
    destruct (ds_batch b ds) as [ds1|e] eqn:Hb; [|discriminate Hout].
    cbn in Hout. cbn [map rev]. rewrite <- app_assoc. cbn [app].
    apply (IH ds1 out (Z.to_nat b :: S) Hout).
    apply (ds_batch_shape b ds ds1 S Hb Hds).
Qed.

Lemma examples_of_batch {F} (items : list (Elem F)) :
  examples_of (Batch items) = concat (map examples_of items).
Proof.
  cbn [examples_of]. induction items as [|x items IH]; [reflexivity|].
  cbn [map concat]. rewrite <- IH. reflexivity.
Qed.

Lemma examples_of_batches {F} (cs : list (list (Elem F))) :
  concat (map examples_of (map Batch cs)) = concat (map examples_of (concat cs)).
Proof.
  induction cs as [|c cs IH]; [reflexivity|].
  cbn [map concat]. rewrite map_app, concat_app, IH, examples_of_batch. reflexivity.
Qed.

Lemma examples_of_unbatched {F} (l : list F) : concat (map examples_of (map Ex l)) = l.
Proof. induction l as [|x l IH]; [reflexivity|]. cbn. rewrite IH. reflexivity. Qed.

(** The padding the code computes is the exact difference while the padded
    capacity stays below [2^63]. *)
Lemma padding_exact (dims : list Z) (pad n : Z) :
  Forall (fun b => 0 < b) dims -> pad <> 0 ->
  0 <= n <= pad * product dims -> pad * product dims < 2 ^ 63 ->
  np_sub (np_mul pad (np_prod dims)) n = pad * product dims - n.
Proof.
  intros Hpos Hpad Hn Hlt. pose proof (product_pos dims Hpos) as Hp.
  assert (1 <= pad) by nia.
  rewrite np_prod_product by (try exact Hpos; nia).
  unfold np_sub, np_mul. rewrite (wrap_signed_64_id (pad * product dims)) by lia.
  apply wrap_signed_64_id. lia.
Qed.

(** X12. When the examples already have a feature called "mask", asking for
    padding fails at construction.  When every feature has a fully known
    shape it is a [TypeError]: the keyword argument [mask] is given twice.
    When some feature has a dimension that is not known, [tf.zeros] fails
    before that, with a [ValueError]. *)
Theorem create_dataset_mask_collision (ops : Ops) (dataset_builder : DatasetBuilder)
    (a : Args) (ds : Dataset (Content Features)) (s : TensorSpec) :
  examples_stage ops dataset_builder a = Ok ds ->
  element_spec ds !! "mask" = Some s ->
  truthy (pad_up_to_batches a) = true ->
  ((forall name s', element_spec ds !! name = Some s' ->
      is_Some (static_shape (ts_shape s'))) ->
   create_dataset ops dataset_builder a = Raise (TypeError (DuplicateKeyword "mask")))
  /\ (forall name s', element_spec ds !! name = Some s' ->
        static_shape (ts_shape s') = None ->
        create_dataset ops dataset_builder a = Raise (ValueError PartiallyKnownShape)).
Proof.
  intros Hex Hs Hp. unfold create_dataset. rewrite Hex, Hp.
  cbn [mbind result_bind Py.bind]. unfold padding_stage. split.
  - intros Hall. destruct (zeros_features_static _ Hall) as [z Hz]. rewrite Hz.
    cbn [mbind result_bind Py.bind]. rewrite bool_decide_eq_true_2; [reflexivity|].
    apply elem_of_dom. exists s. exact Hs.
  - intros name s' Hname Hunknown.
    rewrite (zeros_features_unknown _ name s' Hname Hunknown). reflexivity.
Qed.

Lemma create_dataset_mask_collision_witness :
  create_dataset Fixture.ops0 Fixture2.masked_builder
    (set_pad_up_to_batches (Some 1) Fixture.eval_args)
  = Raise (TypeError (DuplicateKeyword "mask")).
Proof.
  apply (create_dataset_mask_collision Fixture.ops0 Fixture2.masked_builder
           (set_pad_up_to_batches (Some 1) Fixture.eval_args)
           (source_stage Fixture2.masked_builder
              (set_pad_up_to_batches (Some 1) Fixture.eval_args) None)
           bool_spec); try reflexivity.
  intros name s'. unfold source_stage. cbn [element_spec ds_repeat as_dataset
    Fixture2.masked_builder filter_fn cache set_pad_up_to_batches Fixture.eval_args].
  unfold Fixture2.masked_spec. intros Hname.
  apply lookup_singleton_Some in Hname as [_ <-]. eexists. reflexivity.
Defined.

(** X13. Padding reaches the requested number of batches.  When the examples
    are finitely many, the cardinality the dataset reports is their number,
    every feature has a fully known shape and none is called "mask", the
    batch sizes are positive, the examples fit in [pad_up_to_batches] batches,
    the padded capacity is below [2^63] and the prefetch size is at least
    [-1], [create_dataset] returns a dataset of exactly [pad_up_to_batches]
    elements, and reports that cardinality. *)
Theorem padded_dataset_has_requested_batches (ops : Ops)
    (dataset_builder : DatasetBuilder) (a : Args) (ds : Dataset (Content Features))
    (l : list Features) (pad : Z) :
  examples_stage ops dataset_builder a = Ok ds ->
  pad_up_to_batches a = Some pad -> pad <> 0 ->
  (forall name s, element_spec ds !! name = Some s ->
     is_Some (static_shape (ts_shape s))) ->
  element_spec ds !! "mask" = None ->
  content ds = Fin l ->
  cardinality ds = Z.of_nat (length l) ->
  batch_dims a <> [] ->
  Forall (fun b => 0 < b) (batch_dims a) ->
  Z.of_nat (length l) <= pad * product (batch_dims a) ->
  pad * product (batch_dims a) < 2 ^ 63 ->
  -1 <= prefetch_size a ->
  exists out batches,
    create_dataset ops dataset_builder a = Ok out
    /\ content out = Fin batches
    /\ Z.of_nat (length batches) = pad
    /\ cardinality out = pad.
Proof.
  intros Hex Hp Hp0 Hshapes Hmask Hc Hn _ Hpos Hfit Hcap Hpre.
  destruct (zeros_features_static _ Hshapes) as [z Hz].
  pose proof (padding_exact (batch_dims a) pad (Z.of_nat (length l)) Hpos Hp0
                ltac:(lia) Hcap) as Hexact.
  unfold create_dataset. rewrite Hex, Hp. cbn [truthy default].
  replace (pad =? 0) with false by lia. cbn -[padding_stage batching_stage ds_prefetch].
  rewrite (padding_stage_known_cardinality (batch_dims a) pad ds l z);
    [|exact Hz|apply not_elem_of_dom; exact Hmask|exact Hc|exact Hn|lia].
  rewrite Hexact.
  cbn -[batching_stage ds_prefetch].
  unfold batching_stage. cbn [element_spec content cardinality cmap].
  set (padded := map mark l ++
         replicate (Z.to_nat (pad * product (batch_dims a) - Z.of_nat (length l)))
           (filler z)).
  assert (Hlen : Z.of_nat (length (map Ex padded)) = pad * product (batch_dims a)).
  { unfold padded. rewrite length_map, length_app, length_map, length_replicate. lia. }
  destruct (batch_loop_count (rev (batch_dims a))
              {| element_spec := <["mask" := bool_spec]> (element_spec ds);
                 content := Fin (map Ex padded);
                 cardinality :=
                   Z.of_nat (length l)
                   + (pad * product (batch_dims a) - Z.of_nat (length l)) |}
              (map Ex padded) pad) as (out & batches & Hout & Hcont & Hcount & Hcard).
  - apply Forall_rev. exact Hpos.
  - reflexivity.
  - cbn [cardinality]. rewrite Hlen. lia.
  - rewrite product_rev. exact Hlen.
  - rewrite Hout. cbn [mbind result_bind Py.bind]. unfold ds_prefetch.
    replace (prefetch_size a <? -1) with false by lia.
    exists out, batches. auto.
Qed.

Lemma padded_dataset_has_requested_batches_witness :
  exists out batches,
    create_dataset Fixture.ops0 (Fixture.range_builder 10)
      (set_pad_up_to_batches (Some 3) Fixture.eval_args) = Ok out
    /\ content out = Fin batches
    /\ Z.of_nat (length batches) = 3
    /\ cardinality out = 3.
Proof.
  apply (padded_dataset_has_requested_batches Fixture.ops0 (Fixture.range_builder 10)
           (set_pad_up_to_batches (Some 3) Fixture.eval_args)
           (Fixture2.one_epoch 10)
           (map (fun i => Fixture.example (Z.of_nat i)) (seq 0 10)) 3).
  - reflexivity.
  - reflexivity.
  - discriminate.
  - intros name s. unfold Fixture2.one_epoch, Fixture.range_builder, Fixture.id_spec.
    cbn [element_spec ds_repeat as_dataset]. intros Hname.
    apply lookup_singleton_Some in Hname as [_ <-]. eexists. reflexivity.
  - reflexivity.
  - reflexivity.
  - reflexivity.
  - discriminate.
  - repeat constructor.
  - vm_compute. discriminate.
  - reflexivity.
  - vm_compute. discriminate.
Defined.

(** X14. What the padded stream holds, under the conditions of X13 on the
    dataset: first the examples of the dataset, each with [mask=True] and
    otherwise unchanged, then the filler records, each with [mask=False] and
    the zeros of its shape and type for every other feature. *)
Theorem padded_stream_masks (dims : list Z) (pad : Z) (ds : Dataset (Content Features))
    (l : list Features) :
  (forall name s, element_spec ds !! name = Some s ->
     is_Some (static_shape (ts_shape s))) ->
  element_spec ds !! "mask" = None ->
  content ds = Fin l ->
  cardinality ds = Z.of_nat (length l) ->
  dims <> [] ->
  Forall (fun b => 0 < b) dims ->
  pad <> 0 ->
  Z.of_nat (length l) <= pad * product dims ->
  pad * product dims < 2 ^ 63 ->
  exists out padded,
    padding_stage dims pad ds = Ok out
    /\ content out = Fin padded
    /\ map mask_of padded
       = replicate (length l) (Some true)
         ++ replicate (Z.to_nat (pad * product dims - Z.of_nat (length l))) (Some false)
    /\ (forall i x name, l !! i = Some x -> name <> "mask" ->
          exists y, padded !! i = Some y /\ y !! name = x !! name)
    /\ (forall i y name s, (length l <= i)%nat -> padded !! i = Some y ->
          name <> "mask" -> element_spec ds !! name = Some s ->
          exists t, zeros s = Ok t /\ y !! name = Some t).
Proof.
  intros Hshapes Hmask Hc Hn _ Hpos Hp0 Hfit Hcap.
  destruct (zeros_features_static _ Hshapes) as [z Hz].
  pose proof (padding_exact dims pad (Z.of_nat (length l)) Hpos Hp0
                ltac:(lia) Hcap) as Hexact.
  rewrite (padding_stage_known_cardinality dims pad ds l z);
    [|exact Hz|apply not_elem_of_dom; exact Hmask|exact Hc|exact Hn|lia].
  rewrite Hexact.
  do 2 eexists. split; [reflexivity|]. split; [reflexivity|].
  set (k := Z.to_nat (pad * product dims - Z.of_nat (length l))).
  split; [|split].
  - rewrite map_app. f_equal.
    + clear. induction l as [|x l IH]; [reflexivity|].
      cbn [map length replicate]. rewrite IH, mask_of_mark. reflexivity.
    + induction k as [|k' IH]; [reflexivity|].
      cbn [replicate map]. rewrite IH, mask_of_filler. reflexivity.
  - intros i x name Hx Hne. exists (mark x). split.
    + rewrite lookup_app_l by (rewrite length_map; eapply lookup_lt_Some; exact Hx).
      rewrite list_lookup_fmap, Hx. reflexivity.
    + unfold mark. apply lookup_insert_ne. congruence.
  - intros i y name s Hi Hy Hne Hname.
    rewrite lookup_app_r in Hy by (rewrite length_map; exact Hi).
    apply lookup_replicate in Hy as [-> _].
    apply (filler_zeros (element_spec ds) z name s Hz Hne Hname).
Qed.

Lemma padded_stream_masks_witness :
  exists out padded,
    padding_stage [4] 3 (Fixture2.one_epoch 10) = Ok out
    /\ content out = Fin padded
    /\ map mask_of padded
       = replicate 10 (Some true) ++ replicate 2 (Some false).
Proof.
  destruct (padded_stream_masks [4] 3 (Fixture2.one_epoch 10)
              (map (fun i => Fixture.example (Z.of_nat i)) (seq 0 10)))
    as (out & padded & Hout & Hc & Hm & _).
  - intros name s. unfold Fixture2.one_epoch, Fixture.range_builder, Fixture.id_spec.
    cbn [element_spec ds_repeat as_dataset]. intros Hname.
    apply lookup_singleton_Some in Hname as [_ <-]. eexists. reflexivity.
  - reflexivity.
  - reflexivity.
  - reflexivity.
  - discriminate.
  - repeat constructor.
  - discriminate.
  - vm_compute. discriminate.
  - reflexivity.
  - exists out, padded. split; [exact Hout|]. split; [exact Hc|exact Hm].
Defined.

(** On a dataset that repeats forever (cardinality [-1]), padding adds
    no filler record: when the zeros can be built and the padding computed
    from the sentinel is not negative, the padded dataset is the endless
    dataset with [mask=True] on every example. *)
Lemma padding_endless_dataset (dims : list Z) (pad : Z)
    (ds : Dataset (Content Features)) (g : nat -> Features) (z : Features) :
  zeros_features (element_spec ds) = Ok z ->
  element_spec ds !! "mask" = None ->
  content ds = Inf g ->
  cardinality ds = INFINITE_CARDINALITY ->
  0 <= np_sub (np_mul pad (np_prod dims)) (-1) ->
  padding_stage dims pad ds =
    Ok {| element_spec := <["mask" := bool_spec]> (element_spec ds);
          content := Inf (fun i => mark (g i));
          cardinality := INFINITE_CARDINALITY |}.
Proof.
  intros Hz Hmask Hc Hn Hfit. unfold padding_stage. rewrite Hz.
  cbn [mbind result_bind Py.bind].
  rewrite bool_decide_eq_false_2 by (apply not_elem_of_dom; exact Hmask).
  cbn [ds_map cardinality]. rewrite Hn. unfold assert.
  change INFINITE_CARDINALITY with (-1).
  replace (np_sub (np_mul pad (np_prod dims)) (-1) >=? 0) with true by lia.
  cbn [mbind result_bind Py.bind mret result_ret].
  unfold ds_concatenate, ds_map. cbn [content cardinality element_spec].
  rewrite Hc, Hn. reflexivity.
Qed.

(** The elements of [create_dataset] are stacked as [batch_dims] says. *)
Lemma create_dataset_shape (ops : Ops) (dataset_builder : DatasetBuilder)
    (a : Args) (out : Dataset (Content (Elem Features))) :
  create_dataset ops dataset_builder a = Ok out ->
  every_element (has_shape (map Z.to_nat (batch_dims a))) (content out).
Proof.
  unfold create_dataset. intros Hout.
  destruct (examples_stage ops dataset_builder a) as [ds|e]; [|discriminate Hout].
  cbn -[padding_stage batching_stage] in Hout.
  destruct (if truthy (pad_up_to_batches a)
            then padding_stage (batch_dims a) (default 0 (pad_up_to_batches a)) ds
            else mret ds) as [ds1|e]; [|discriminate Hout].
  cbn -[batching_stage] in Hout.
  destruct (batching_stage (batch_dims a) ds1) as [ds2|e] eqn:Hb; [|discriminate Hout].
  cbn [mbind result_bind Py.bind] in Hout. unfold ds_prefetch in Hout.
  destruct (prefetch_size a <? -1); [discriminate Hout|].
  inversion Hout; subst out.
  unfold batching_stage in Hb.
  pose proof (batch_loop_shape (rev (batch_dims a)) _ ds2 [] Hb) as Hshape.
  rewrite app_nil_r, map_rev, rev_involutive in Hshape. apply Hshape.
  cbn [content]. intros i x Hx. cbn [has_shape].
  destruct (content ds1) as [l|g]; cbn [cmap at_position] in Hx.
  - rewrite list_lookup_fmap in Hx. destruct (l !! i); [|discriminate Hx].
    inversion Hx. eexists. reflexivity.
  - inversion Hx. eexists. reflexivity.
Qed.

(** X15. Every element [create_dataset] returns has the batch dimensions of
    [batch_dims], outermost first: a stack of [batch_dims[0]] stacks of
    [batch_dims[1]] ... examples.  No partial batch is ever returned. *)
Theorem create_dataset_batch_shape (ops : Ops) (dataset_builder : DatasetBuilder)
    (a : Args) (out : Dataset (Content (Elem Features))) :
  create_dataset ops dataset_builder a = Ok out ->
  every_element (has_shape (map Z.to_nat (batch_dims a))) (content out).
Proof. apply create_dataset_shape. Qed.

Lemma create_dataset_batch_shape_witness :
  exists out,
    create_dataset Fixture.ops0 (Fixture.range_builder 10) Fixture.eval_args = Ok out
    /\ every_element (has_shape [4%nat]) (content out).
Proof.
  eexists. split.
  - vm_compute. reflexivity.
  - apply (create_dataset_batch_shape Fixture.ops0 (Fixture.range_builder 10)
             Fixture.eval_args).
    vm_compute. reflexivity.
Defined.

(** X16. Batching keeps the order of the examples and drops only the tail
    that does not fill a batch: with one batch dimension [b > 0], [n]
    examples give [n // b] batches, which hold the first [b * (n // b)]
    examples in order. *)
Theorem batching_drops_only_the_tail (b : Z) (ds : Dataset (Content Features))
    (l : list Features) :
  0 < b ->
  content ds = Fin l ->
  exists out batches,
    batching_stage [b] ds = Ok out
    /\ content out = Fin batches
    /\ length batches = (length l / Z.to_nat b)%nat
    /\ concat (map examples_of batches)
       = take (Z.to_nat b * (length l / Z.to_nat b)) l.
Proof.
  intros Hb Hc. unfold batching_stage. cbn [rev app batch_loop].
  unfold ds_batch. replace (b <? 0) with false by lia.
  replace (b =? 0) with false by lia.
  cbn [mbind result_bind Py.bind mret result_ret content cardinality element_spec].
  rewrite Hc. cbn [cmap].
  do 2 eexists. split; [reflexivity|]. split; [reflexivity|].
  rewrite length_map.
  split.
  - rewrite length_map, chunks_length by (rewrite ?length_map; lia).
    rewrite length_map. reflexivity.
  - rewrite examples_of_batches, chunks_concat by (rewrite ?length_map; lia).
    rewrite length_map, <- (fmap_take Ex). apply examples_of_unbatched.
Qed.

Lemma batching_drops_only_the_tail_witness :
  exists out batches,
    batching_stage [4] (Fixture2.one_epoch 10) = Ok out
    /\ content out = Fin batches
    /\ length batches = (10 / 4)%nat.
Proof.
  destruct (batching_drops_only_the_tail 4 (Fixture2.one_epoch 10)
              (map (fun i => Fixture.example (Z.of_nat i)) (seq 0 10)))
    as (out & batches & Hout & Hc & Hlen & _).
  - lia.
  - reflexivity.
  - exists out, batches. split; [exact Hout|]. split; [exact Hc|exact Hlen].
Defined.

(** * Properties of the distributed wrapper and of [skip_decoders] *)

(** What [distribute] returns when every call succeeds. *)
Lemma distribute_ok {D} (f : InputContext -> list info_record * result D)
    (contexts : list InputContext) (l : list D) :
  snd (distribute f contexts) = Ok l ->
  Forall2 (fun c d => snd (f c) = Ok d) contexts l
  /\ fst (distribute f contexts) = concat (map (fun c => fst (f c)) contexts).
Proof.
  revert l. induction contexts as [|c contexts IH]; intros l Hl.
  - cbn in Hl. inversion Hl. split; [constructor|reflexivity].
  - cbn [distribute] in *. destruct (f c) as [log [d|e]] eqn:Hf; [|discriminate Hl].
    destruct (distribute f contexts) as [log' [l'|e]] eqn:Hd; cbn in Hl;
      [|discriminate Hl].
    inversion Hl; subst l. destruct (IH l' eq_refl) as [Hall Hlog].
    split.
    + constructor; [rewrite Hf; reflexivity|exact Hall].
    + cbn [fst map concat]. cbn [fst] in Hlog. rewrite Hf, Hlog. reflexivity.
Qed.

(** X17. Without a seed and with [shuffle=True], the distributed wrapper
    fails like [create_dataset] does: the first call of [dataset_fn] raises
    the [ValueError] "Please set 'rng' when shuffling." once its batch size is
    known, no further pipeline is built, and only that call is logged. *)
Theorem distributed_missing_seed (ops : Ops) (jax_fold_in : Key -> Z -> Key)
    (dataset_builder : DatasetBuilder) (d : DistributedArgs)
    (c : InputContext) (rest : list InputContext) (b : Z) :
  d_rng d = None -> d_shuffle d = true ->
  input_contexts (d_strategy d) = c :: rest ->
  get_per_replica_batch_size c (d_global_batch_size d) = Ok b ->
  create_distributed_dataset ops jax_fold_in dataset_builder d
  = ([Info "dataset_fn(input_context=%s)" c], Raise (ValueError SetRngWhenShuffling)).
Proof.
  intros Hr Hs Hc Hb. unfold create_distributed_dataset. rewrite Hc.
  cbn [distribute]. unfold dataset_fn. rewrite Hr, Hb.
  cbn [mbind result_bind Py.bind]. unfold create_dataset.
  rewrite examples_stage_missing_seed by (cbn; first [assumption|reflexivity]).
  reflexivity.
Qed.

Lemma distributed_missing_seed_witness :
  snd (create_distributed_dataset Fixture.ops0 Fixture2.fold0 (Fixture.range_builder 64)
         (Build_DistributedArgs (SplitName "train") 32 Fixture2.two_workers None None
            None None false (Some 1) true 10000 4 None))
  = Raise (ValueError SetRngWhenShuffling).
Proof.
  rewrite (distributed_missing_seed Fixture.ops0 Fixture2.fold0 (Fixture.range_builder 64)
             (Build_DistributedArgs (SplitName "train") 32 Fixture2.two_workers None None
                None None false (Some 1) true 10000 4 None)
             (Fixture2.context 0) [Fixture2.context 1] 4);
    reflexivity.
Defined.

(** X18. When the distributed wrapper succeeds, it returns one dataset per
    input pipeline of the strategy, in order, and logs one record per
    pipeline; the elements of each dataset are batches of exactly the
    per-replica batch size its input context answers for
    [global_batch_size]; with a seed, the pipeline is the one [create_dataset]
    builds from the seed folded with the pipeline id. *)
Theorem distributed_datasets_per_pipeline (ops : Ops) (jax_fold_in : Key -> Z -> Key)
    (dataset_builder : DatasetBuilder) (d : DistributedArgs)
    (workers : list (Dataset (Content (Elem Features)))) :
  snd (create_distributed_dataset ops jax_fold_in dataset_builder d) = Ok workers ->
  length workers = length (input_contexts (d_strategy d))
  /\ fst (create_distributed_dataset ops jax_fold_in dataset_builder d)
     = map (Info "dataset_fn(input_context=%s)") (input_contexts (d_strategy d))
  /\ forall j c out,
       input_contexts (d_strategy d) !! j = Some c -> workers !! j = Some out ->
       exists b,
         get_per_replica_batch_size c (d_global_batch_size d) = Ok b
         /\ create_dataset ops dataset_builder
              (worker_args d
                 (option_map (fun rng => jax_fold_in rng (input_pipeline_id c)) (d_rng d))
                 b) = Ok out
         /\ every_element (has_shape [Z.to_nat b]) (content out).
Proof.
  unfold create_distributed_dataset. intros Hw.
  apply distribute_ok in Hw as [Hall Hlog]. split; [|split].
  - symmetry. eapply Forall2_length. exact Hall.
  - rewrite Hlog. clear. induction (input_contexts (d_strategy d)) as [|c cs IH];
      [reflexivity|]. cbn [map concat]. rewrite IH. reflexivity.
  - intros j c out Hc Hout.
    pose proof (Forall2_lookup_lr _ _ _ _ _ _ Hall Hc Hout) as Hf.
    unfold dataset_fn in Hf. cbn [snd] in Hf.
    destruct (get_per_replica_batch_size c (d_global_batch_size d)) as [b|e];
      [|discriminate Hf].
    cbn [mbind result_bind Py.bind] in Hf. exists b. split; [reflexivity|].
    assert (Hrng : match d_rng d with
                   | Some rng => Some (jax_fold_in rng (input_pipeline_id c))
                   | None => None
                   end
                   = option_map (fun rng => jax_fold_in rng (input_pipeline_id c)) (d_rng d))
      by (destruct (d_rng d); reflexivity).
    rewrite Hrng in Hf. split; [exact Hf|].
    apply (create_dataset_shape _ _ _ _ Hf).
Qed.

Lemma distributed_datasets_per_pipeline_witness :
  exists workers,
    snd (create_distributed_dataset Fixture.ops0 Fixture2.fold0
           (Fixture.range_builder 10) Fixture2.dist_args) = Ok workers
    /\ length workers = 2%nat.
Proof.
  eexists. split.
  - vm_compute. reflexivity.
  - apply (distributed_datasets_per_pipeline Fixture.ops0 Fixture2.fold0
             (Fixture.range_builder 10) Fixture2.dist_args).
    vm_compute. reflexivity.
Defined.

(** X19. [skip_decoders] returns a decoder for a name exactly when the name
    is "image" or "video" and is a feature of the builder, and the decoder is
    always [SkipDecoding]; for a builder with neither feature the dictionary
    is empty. *)
Theorem skip_decoders_lookup (info_features : list string) (name : string) :
  (skip_decoders info_features !! name = Some SkipDecoding
   <-> In name info_features /\ (name = "image" \/ name = "video"))
  /\ (skip_decoders info_features !! name = None
      <-> ~ (In name info_features /\ (name = "image" \/ name = "video")))
  /\ (~ In "image" info_features -> ~ In "video" info_features ->
      skip_decoders info_features = ∅).
Proof.
  assert (Hin : name ∈ (list_to_set info_features ∩ ({[ "image" ]} ∪ {[ "video" ]}) : gset string)
                <-> In name info_features /\ (name = "image" \/ name = "video")).
  { rewrite elem_of_intersection, elem_of_union, !elem_of_singleton,
      elem_of_list_to_set, list_elem_of_In. reflexivity. }
  unfold skip_decoders. split; [|split].
  - rewrite lookup_gset_to_gmap_Some, Hin. tauto.
  - rewrite lookup_gset_to_gmap_None, Hin. reflexivity.
  - intros Hi Hv. apply map_eq. intros k. rewrite lookup_empty.
    apply lookup_gset_to_gmap_None.
    rewrite elem_of_intersection, elem_of_union, !elem_of_singleton,
      elem_of_list_to_set, list_elem_of_In.
    intros [Hk [-> | ->]]; auto.
Qed.

Example skip_decoders_imagenet :
  skip_decoders ["image"; "label"; "file_name"] = {[ "image" := SkipDecoding ]}.
Proof. vm_compute. reflexivity. Qed.
